(** * Beehive monitoring data generator

    A shallow embedding of [generate_beehive_data] from
    [generate_hive_data_json.py], and the properties of the generated
    reading sequence.

    Modelling conventions.
    - Numbers.  Python floats are modelled by rationals ([Q]) with exact
      arithmetic: a decimal literal denotes its decimal value and [+], [-],
      [*], [/] do not round.  Equality of numeric values is [Qeq] ([==]).
    - [np.sin] is a parameter [np_sin : Q -> Q] of the generator; [np.pi]
      is the double-precision constant.
    - Randomness.  The process-wide NumPy generator is a pair of sequences
      [gauss], [unif] indexed by the number of calls made so far: the k-th
      call returns [loc + scale * gauss k] when it is [np.random.normal]
      and [low + (high - low) * unif k] when it is [np.random.uniform].
    - Time.  A naive [datetime] is the number of microseconds since
      0001-01-01T00:00:00 on the proleptic Gregorian calendar.
    - Exceptions.  [KeyError] and [ZeroDivisionError] are results of the
      generator monad, so that a successful run shows that neither is
      raised. *)

From Stdlib Require Import ZArith QArith Qround Lqa Lia String List Sorted Finite.
From Stdlib Require Import DecimalString.
From stdpp Require Import gmap strings list fin_maps.

Local Open Scope Q_scope.

(** ** Python built-ins used by the generator *)

Module Py.

Definition Qlt_bool (x y : Q) : bool := negb (Qle_bool y x).

(** [min(a, b)]: the later argument wins only when strictly smaller. *)
Definition min (a b : Q) : Q := if Qlt_bool b a then b else a.

(** [max(a, b)]: the later argument wins only when strictly greater. *)
Definition max (a b : Q) : Q := if Qlt_bool a b then b else a.

(** Nearest integer, ties to the even neighbour. *)
Definition round_half_even (x : Q) : Z :=
  let f := Qfloor x in
  let r := x - inject_Z f in
  if Qlt_bool r (1 # 2) then f
  else if Qlt_bool (1 # 2) r then (f + 1)%Z
  else if Z.even f then f else (f + 1)%Z.

Definition pow10 (ndigits : nat) : Z := (10 ^ Z.of_nat ndigits)%Z.

(** [round(x, ndigits)] for [ndigits >= 0]. *)
Definition round (x : Q) (ndigits : nat) : Q :=
  inject_Z (round_half_even (x * inject_Z (pow10 ndigits)))
  / inject_Z (pow10 ndigits).

Inductive Exception : Type := KeyError | ZeroDivisionError.

Inductive Result (A : Type) : Type :=
| Ok (a : A)
| Raise (e : Exception).
Arguments Ok {A} a.
Arguments Raise {A} e.

(** [x / y] with a divisor that is not a literal. *)
Definition truediv (x y : Q) : Result Q :=
  if Qeq_bool y 0 then Raise ZeroDivisionError else Ok (x / y).

(** [d[k]] on a dict. *)
Definition getitem (d : gmap string Q) (k : string) : Result Q :=
  match d !! k with
  | Some v => Ok v
  | None => Raise KeyError
  end.

End Py.

(** ** Naive datetimes and the hourly grid *)

Module Time.

Local Open Scope Z_scope.

Definition us_per_hour : Z := 3600 * 1000000.
Definition us_per_day : Z := 24 * us_per_hour.

(** [timedelta(days=n)] *)
Definition timedelta_days (n : Z) : Z := n * us_per_day.

(** [timestamp.hour] *)
Definition hour (t : Z) : Z := (t mod us_per_day) / us_per_hour.

(** [timestamp.toordinal()]: day number, 0001-01-01 is day 1. *)
Definition toordinal (t : Z) : Z := t / us_per_day + 1.

(** [timestamp.timetuple().tm_yday], following the 400/100/4/1-year
    cycle decomposition of the ordinal. *)
Definition tm_yday (t : Z) : Z :=
  let n := toordinal t - 1 in
  let n100 := (n mod 146097) / 36524 in
  let n := (n mod 146097) mod 36524 in
  let n1 := (n mod 1461) / 365 in
  let n := (n mod 1461) mod 365 in
  if (n1 =? 4) || (n100 =? 4) then 366 else n + 1.

(** [pd.date_range(start=s, end=e, freq='h')]: [s], [s + 1h], ... up to
    and including [e] when it falls on the grid. *)
Definition date_range (s e : Z) : list Z :=
  if e <? s then []
  else map (fun k => s + Z.of_nat k * us_per_hour)
           (seq 0 (S (Z.to_nat ((e - s) / us_per_hour)))).

End Time.

(** ** Data model *)

Inductive HiveType : Type := master | worker.

Definition HiveType_eqb (a b : HiveType) : bool :=
  match a, b with
  | master, master | worker, worker => true
  | _, _ => false
  end.

Record Hive : Type := mkHive {
  id : string;
  name : string;
  type : HiveType;
  location : string;
  master_id : option string
}.

Definition hives_config : list Hive := [
  mkHive "master_001" "Master Hive Alpha" master "North Field" None;
  mkHive "worker_001" "Worker Hive 1" worker "North Field" (Some "master_001"%string);
  mkHive "worker_002" "Worker Hive 2" worker "North Field" (Some "master_001"%string);
  mkHive "worker_003" "Worker Hive 3" worker "East Field" (Some "master_001"%string);
  mkHive "master_002" "Master Hive Beta" master "South Field" None;
  mkHive "worker_004" "Worker Hive 4" worker "South Field" (Some "master_002"%string);
  mkHive "worker_005" "Worker Hive 5" worker "West Field" (Some "master_002"%string)
]%string.

(** One element of [data].  [r_timestamp] keeps the instant that the
    source renders with [isoformat()]. *)
Record Reading : Type := mkReading {
  r_timestamp : Z;
  r_hive_id : string;
  r_hive_name : string;
  r_hive_type : HiveType;
  r_location : string;
  r_master_id : option string;
  r_temperature : Q;
  r_humidity : Q;
  r_weight : Q;
  r_activity_level : Q;
  r_hourly_production : Q;
  r_cumulative_production : Q;
  r_production_efficiency : Q
}.

(** The locals of one loop iteration that later statements read. *)
Record Sample : Type := mkSample {
  temperature : Q;
  humidity : Q;
  weight : Q;
  activity : Q;
  hourly_production : Q
}.

(** Mutable state of one run: the NumPy call counter, the accumulator
    dict and the list being built. *)
Record GenState : Type := mkGenState {
  rng_calls : nat;
  cumulative_production : gmap string Q;
  data : list Reading
}.

(** ** The generator monad: state and exceptions *)

Definition M (A : Type) : Type := GenState -> Py.Result (A * GenState).

Definition ret {A} (a : A) : M A := fun st => Py.Ok (a, st).

Definition bind {A B} (c : M A) (k : A -> M B) : M B :=
  fun st =>
    match c st with
    | Py.Ok (a, st') => k a st'
    | Py.Raise e => Py.Raise e
    end.

Notation "'let*' x ':=' c 'in' k" := (bind c (fun x => k))
  (at level 10, x name, c at level 100, k at level 200).

Definition lift {A} (r : Py.Result A) : M A :=
  fun st =>
    match r with
    | Py.Ok a => Py.Ok (a, st)
    | Py.Raise e => Py.Raise e
    end.

Fixpoint for_each {A} (l : list A) (body : A -> M unit) : M unit :=
  match l with
  | [] => ret tt
  | x :: l' => let* _ := body x in for_each l' body
  end.

Definition np_pi : Q := 884279719003555 # 281474976710656.

Section Generator.

Variable np_sin : Q -> Q.
Variables gauss unif : nat -> Q.

(** [np.random.normal(loc, scale)] *)
Definition np_random_normal (loc scale : Q) : M Q :=
  fun st =>
    Py.Ok (loc + scale * gauss (rng_calls st),
           mkGenState (S (rng_calls st)) (cumulative_production st) (data st)).

(** [np.random.uniform(low, high)] *)
Definition np_random_uniform (low high : Q) : M Q :=
  fun st =>
    Py.Ok (low + (high - low) * unif (rng_calls st),
           mkGenState (S (rng_calls st)) (cumulative_production st) (data st)).

Definition in_hours (lo hi hour : Z) : bool :=
  ((lo <=? hour) && (hour <=? hi))%Z.

Definition in_range (lo hi x : Q) : bool :=
  Qle_bool lo x && Qle_bool x hi.

Definition production_multiplier (hive : Hive) : Q :=
  if HiveType_eqb (type hive) master then 1.5 else 1.0.

Definition temp_factor (temperature : Q) : Q :=
  if in_range 33 37 temperature then 1.0 else 0.7.

Definition humidity_factor (humidity : Q) : Q :=
  if in_range 45 65 humidity then 1.0 else 0.8.

Definition activity_factor (activity : Q) : Q := activity / 100.

Definition seasonal_factor (day_of_year : Z) : Q :=
  0.5 + 0.8 * (0.5 + 0.5 * np_sin (2 * np_pi * inject_Z (day_of_year - 80) / 365)).

Definition base_hourly_production (hive : Hive) : Q :=
  0.008 * production_multiplier hive.

(** Lines 35-79 of the loop body: the simulated signals and the hourly
    production of one hive at one timestamp. *)
Definition simulate_hive (hour day_of_year : Z) (hive : Hive) : M Sample :=
  let base_temp :=
    35 + 3 * np_sin (2 * np_pi * inject_Z hour / 24)
       + 2 * np_sin (2 * np_pi * inject_Z day_of_year / 365) in
  let* temp_noise := np_random_normal 0 0.5 in
  let temperature := base_temp + temp_noise in
  let base_humidity :=
    65 - 10 * np_sin (2 * np_pi * inject_Z hour / 24)
       + 5 * np_sin (2 * np_pi * inject_Z day_of_year / 365) in
  let* humidity_noise := np_random_normal 0 2 in
  let humidity := Py.max 30 (Py.min 90 (base_humidity + humidity_noise)) in
  let base_weight := if HiveType_eqb (type hive) master then 40 else 32 in
  let seasonal_weight := 5 * np_sin (2 * np_pi * inject_Z day_of_year / 365) in
  let daily_weight :=
    if in_hours 6 18 hour
    then -2 * np_sin (2 * np_pi * inject_Z (hour - 6) / 24)
    else 0 in
  let* weight_noise := np_random_normal 0 0.3 in
  let weight := base_weight + seasonal_weight + daily_weight + weight_noise in
  let base_activity :=
    if in_hours 6 18 hour
    then 50 + 30 * np_sin (2 * np_pi * inject_Z (hour - 6) / 12)
    else 20 in
  let* activity_noise := np_random_normal 0 10 in
  let activity := Py.max 0 (Py.min 100 (base_activity + activity_noise)) in
  let* hourly_production :=
    if in_hours 6 20 hour
    then
      let hourly_production :=
        base_hourly_production hive * temp_factor temperature
        * humidity_factor humidity * activity_factor activity
        * seasonal_factor day_of_year in
      let* u := np_random_uniform 0.7 1.3 in
      ret (hourly_production * u)
    else ret 0 in
  ret (mkSample temperature humidity weight activity hourly_production).

(** [cumulative_production[k] += v] *)
Definition accumulate (k : string) (v : Q) : M unit :=
  fun st =>
    match Py.getitem (cumulative_production st) k with
    | Py.Ok old =>
        Py.Ok (tt, mkGenState (rng_calls st)
                              (<[k := old + v]> (cumulative_production st))
                              (data st))
    | Py.Raise e => Py.Raise e
    end.

(** [cumulative_production[k]] *)
Definition read_cumulative (k : string) : M Q :=
  fun st =>
    match Py.getitem (cumulative_production st) k with
    | Py.Ok v => Py.Ok (v, st)
    | Py.Raise e => Py.Raise e
    end.

(** [data.append(row)] *)
Definition append (row : Reading) : M unit :=
  fun st =>
    Py.Ok (tt, mkGenState (rng_calls st) (cumulative_production st)
                          (data st ++ [row])).

(** [hourly_production / (activity / 100) if activity > 0 else 0] *)
Definition production_efficiency (hourly_production activity : Q) : Py.Result Q :=
  if Py.Qlt_bool 0 activity
  then Py.truediv hourly_production (activity / 100)
  else Py.Ok 0.

(** The dict literal of lines 87-101. *)
Definition make_row (timestamp : Z) (hive : Hive) (s : Sample)
    (total efficiency : Q) : Reading := {|
  r_timestamp := timestamp;
  r_hive_id := id hive;
  r_hive_name := name hive;
  r_hive_type := type hive;
  r_location := location hive;
  r_master_id := master_id hive;
  r_temperature := Py.round (temperature s) 1;
  r_humidity := Py.round (humidity s) 1;
  r_weight := Py.round (weight s) 1;
  r_activity_level := Py.round (activity s) 0;
  r_hourly_production := Py.round (hourly_production s) 4;
  r_cumulative_production := Py.round total 3;
  r_production_efficiency := Py.round efficiency 4
|}.

(** Lines 81-101 of the loop body. *)
Definition record_reading (timestamp : Z) (hive : Hive) (s : Sample) : M unit :=
  let* _ := accumulate (id hive) (hourly_production s) in
  let* efficiency := lift (production_efficiency (hourly_production s) (activity s)) in
  let* total := read_cumulative (id hive) in
  append (make_row timestamp hive s total efficiency).

Definition hive_body (timestamp hour day_of_year : Z) (hive : Hive) : M unit :=
  let* s := simulate_hive hour day_of_year hive in
  record_reading timestamp hive s.

(** The two nested loops, for any time grid and any hive table. *)
Definition generate_rows (time_range : list Z) (hives : list Hive) : M unit :=
  for_each time_range (fun timestamp =>
    let hour := Time.hour timestamp in
    let day_of_year := Time.tm_yday timestamp in
    for_each hives (fun hive => hive_body timestamp hour day_of_year hive)).

(** [{hive['id']: 0 for hive in hives}] *)
Definition init_cumulative (hives : list Hive) : gmap string Q :=
  fold_left (fun d hive => <[id hive := 0]> d) hives ∅.

Definition init_state (hives : list Hive) : GenState :=
  mkGenState 0 (init_cumulative hives) [].

(** The generator on an explicit time grid. *)
Definition generate_on (time_range : list Z) : Py.Result (list Reading * list Hive) :=
  match generate_rows time_range hives_config (init_state hives_config) with
  | Py.Ok (_, st) => Py.Ok (data st, hives_config)
  | Py.Raise e => Py.Raise e
  end.

(** [generate_beehive_data()], with [datetime.now()] as [now]. *)
Definition generate_beehive_data (now : Z) : Py.Result (list Reading * list Hive) :=
  let end_time := now in
  let start_time := (end_time - Time.timedelta_days 30)%Z in
  let time_range := Time.date_range start_time end_time in
  generate_on time_range.

(** *** The loop as a pure function of the call counter and the dict

    The definitions below restate what one iteration computes, read off
    [simulate_hive] and [production_efficiency] themselves; the lemmas
    [simulate_hive_run], [hive_body_run] and [generate_rows_run] tie them
    to the monadic loop. *)

(** The locals that [simulate_hive] computes when [k] calls of the
    random generator precede it. *)
Definition sample_at (hour day_of_year : Z) (hive : Hive) (k : nat) : Sample :=
  match simulate_hive hour day_of_year hive (mkGenState k ∅ []) with
  | Py.Ok (s, _) => s
  | Py.Raise _ => mkSample 0 0 0 0 0
  end.

(** Number of random draws of one iteration. *)
Definition draws_used (hour : Z) : nat :=
  if in_hours 6 20 hour then 5%nat else 4%nat.

Definition efficiency_value (hourly_production activity : Q) : Q :=
  match production_efficiency hourly_production activity with
  | Py.Ok v => v
  | Py.Raise _ => 0
  end.

(** The (timestamp, hive) pairs in the order the nested loops visit them. *)
Definition grid_pairs (time_range : list Z) (hives : list Hive) : list (Z * Hive) :=
  flat_map (fun timestamp => map (pair timestamp) hives) time_range.

(** The row appended for the pair [(t, hive)] from call counter [k] and
    accumulator [cum], and the total accumulated for the hive. *)
Definition total_after (t : Z) (hive : Hive) (k : nat) (cum : gmap string Q) : Q :=
  default 0 (cum !! id hive)
  + hourly_production (sample_at (Time.hour t) (Time.tm_yday t) hive k).

Definition row_at (t : Z) (hive : Hive) (k : nat) (cum : gmap string Q) : Reading :=
  let s := sample_at (Time.hour t) (Time.tm_yday t) hive k in
  make_row t hive s (total_after t hive k cum)
           (efficiency_value (hourly_production s) (activity s)).

Fixpoint rows_from (pairs : list (Z * Hive)) (k : nat) (cum : gmap string Q)
    : list Reading :=
  match pairs with
  | [] => []
  | (t, hive) :: pairs' =>
      row_at t hive k cum
      :: rows_from pairs' (k + draws_used (Time.hour t))
                   (<[id hive := total_after t hive k cum]> cum)
  end.

(** Unrounded hourly production of each visited pair, in visiting order. *)
Fixpoint production_trace (pairs : list (Z * Hive)) (k : nat) : list (string * Q) :=
  match pairs with
  | [] => []
  | (t, hive) :: pairs' =>
      (id hive, hourly_production (sample_at (Time.hour t) (Time.tm_yday t) hive k))
      :: production_trace pairs' (k + draws_used (Time.hour t))
  end.

End Generator.

(** Sum of the productions that a trace records for one hive. *)
Fixpoint hive_total (hid : string) (trace : list (string * Q)) : Q :=
  match trace with
  | [] => 0
  | (h, p) :: trace' => (if String.eqb h hid then p else 0) + hive_total hid trace'
  end.

Definition row_key (r : Reading) : Z * string := (r_timestamp r, r_hive_id r).

(** ** Concrete inputs for running the generator

    [sin_approx] is Bhaskara's rational approximation of the sine after
    reduction to one turn, clamped to [[-1, 1]]; it stands in for [np.sin]
    when the generator is evaluated. *)

Definition bhaskara (y : Q) : Q :=
  Qred (16 * y * (1 - y) / (5 - 4 * y * (1 - y))).

Definition sin_approx (x : Q) : Q :=
  let t := Qred (x / (2 * np_pi)) in
  let f := t - inject_Z (Qfloor t) in
  let v := if Qle_bool f (1 # 2) then bhaskara (2 * f) else - bhaskara (2 * f - 1) in
  Py.max (-1) (Py.min 1 v).

(** 2026-11-03T13:33:00 *)
Definition sample_now : Z :=
  ((739923 - 1) * Time.us_per_day + 13 * Time.us_per_hour + 33 * 60000000)%Z.

(** 2026-06-21T12:00:00, day 172 of the year *)
Definition solstice_noon : Z :=
  ((739616 + 172 - 1) * Time.us_per_day + 12 * Time.us_per_hour)%Z.

(** 2026-11-03T20:00:00 *)
Definition evening : Z :=
  ((739923 - 1) * Time.us_per_day + 20 * Time.us_per_hour)%Z.

Definition zero_draws (k : nat) : Q := 0.
Definition half_draws (k : nat) : Q := 1 # 2.

(** Noise that lowers the humidity by 2 and raises the activity by 50. *)
Definition solstice_gauss (k : nat) : Q :=
  match k with
  | 1%nat => -1
  | 3%nat => 5
  | _ => 0
  end.

(** Noise that lowers the activity by 19.7. *)
Definition evening_gauss (k : nat) : Q :=
  match k with
  | 3%nat => -197 # 100
  | _ => 0
  end.

(** Draws that are 0 for the first 35 calls and 1 afterwards. *)
Definition late_draws (k : nat) : Q := if (k <? 35)%nat then 0 else 1.

(** The first entry of [hives_config]. *)
Definition master_001 : Hive :=
  mkHive "master_001" "Master Hive Alpha" master "North Field" None.

Definition key_eq_dec (x y : Z * string) : {x = y} + {x <> y}.
Proof. decide equality; [apply string_dec | apply Z.eq_dec]. Defined.

(** ** Writing the result: [save_data_to_json]

    The file system is a map from paths to the documents handed to
    [json.dump], together with the set of paths that cannot be opened for
    writing (a missing directory, a read-only file): [open(path, 'w')]
    raises [OSError] on these.  A document is kept as the Python value that
    is dumped; the JSON text is not modelled, and every value of a row or of
    a hive is one that [json.dump] accepts.  Standard output is the list of
    printed lines.  An exception leaves the function with the world as it is
    at that point. *)

Inductive Document : Type :=
| ReadingsDoc (rows : list Reading)
| HivesDoc (hives : list Hive).

Record World : Type := mkWorld {
  files : gmap string Document;
  unwritable : gset string;
  stdout : list string
}.

Inductive SaveException : Type :=
| GeneratorException (e : Py.Exception)
| OSError.

Inductive Outcome : Type :=
| Returned (value : bool)
| Raised (e : SaveException).

(** [print(line)] *)
Definition print (line : string) (w : World) : World :=
  mkWorld (files w) (unwritable w) (stdout w ++ [line]).

(** [with open(path, 'w') as f: json.dump(doc, f, indent=2)]; [None] when
    [open] raises. *)
Definition dump (path : string) (doc : Document) (w : World) : option World :=
  if decide (path ∈ unwritable w) then None
  else Some (mkWorld (<[path := doc]> (files w)) (unwritable w) (stdout w)).

(** [str(n)] for a length. *)
Definition str (n : nat) : string := NilEmpty.string_of_uint (Nat.to_uint n).

Definition save_data_to_json (np_sin : Q -> Q) (gauss unif : nat -> Q) (now : Z)
    (w : World) : Outcome * World :=
  let w := print "Generating beehive data..." w in
  match generate_beehive_data np_sin gauss unif now with
  | Py.Raise e => (Raised (GeneratorException e), w)
  | Py.Ok (data, hives_config) =>
      match dump "beehive_data.json" (ReadingsDoc data) w with
      | None => (Raised OSError, w)
      | Some w =>
          match dump "hives_config.json" (HivesDoc hives_config) w with
          | None => (Raised OSError, w)
          | Some w =>
              let w := print ("✅ Generated " ++ str (length data)
                              ++ " data points for "
                              ++ str (length hives_config) ++ " hives") w in
              let w := print "✅ Data saved to 'beehive_data.json'" w in
              let w := print "✅ Configuration saved to 'hives_config.json'" w in
              (Returned true, w)
          end
      end
  end.

(** ** Quantities used to state properties of a run *)

(** Random draws consumed by the iterations of a list of pairs. *)
Definition draws_total (pairs : list (Z * Hive)) : nat :=
  list_sum (map (fun p => draws_used (Time.hour (fst p))) pairs).

(** Sum of the emitted [hourly_production] of the rows of one hive. *)
Fixpoint emitted_total (hid : string) (rows : list Reading) : Q :=
  match rows with
  | [] => 0
  | r :: rows' =>
      (if String.eqb (r_hive_id r) hid then r_hourly_production r else 0)
      + emitted_total hid rows'
  end.

(** Number of rows of one hive. *)
Fixpoint rows_of_hive (hid : string) (rows : list Reading) : nat :=
  match rows with
  | [] => 0
  | r :: rows' =>
      ((if String.eqb (r_hive_id r) hid then 1 else 0) + rows_of_hive hid rows')%nat
  end.

(** A hive that [hives_config] does not list. *)
Definition stray_hive : Hive :=
  mkHive "worker_099" "Worker Hive 99" worker "North Field" (Some "master_001"%string).

(** A state in which [stray_hive] has an entry and three draws are used. *)
Definition stray_state : GenState :=
  mkGenState 3 (<["worker_099"%string := 1]> (init_cumulative hives_config)) [].

(** * Properties *)

(** ** Comparisons, clamping and rounding *)

Lemma Qlt_bool_iff (x y : Q) : Py.Qlt_bool x y = true <-> x < y.
Proof.
  unfold Py.Qlt_bool. rewrite negb_true_iff.
  destruct (Qle_bool y x) eqn:E.
  - apply Qle_bool_iff in E. split; [discriminate | intros H; lra].
  - split; [intros _ | reflexivity].
    apply Qnot_le_lt. intros H. apply Qle_bool_iff in H. congruence.
Qed.

Lemma Qlt_bool_false (x y : Q) : Py.Qlt_bool x y = false <-> y <= x.
Proof.
  unfold Py.Qlt_bool. rewrite negb_false_iff. apply Qle_bool_iff.
Qed.

Lemma clamp_bounds (lo hi x : Q) :
  lo <= hi -> lo <= Py.max lo (Py.min hi x) <= hi.
Proof.
  intros Hlh. unfold Py.max, Py.min.
  destruct (Py.Qlt_bool x hi) eqn:E1.
  - apply Qlt_bool_iff in E1.
    destruct (Py.Qlt_bool lo x) eqn:E2.
    + apply Qlt_bool_iff in E2. lra.
    + lra.
  - destruct (Py.Qlt_bool lo hi) eqn:E2; lra.
Qed.

Lemma round_half_even_floor (x : Q) :
  (Qfloor x <= Py.round_half_even x <= Qfloor x + 1)%Z.
Proof.
  unfold Py.round_half_even.
  repeat match goal with |- context [if ?b then _ else _] => destruct b end; lia.
Qed.

Lemma round_half_even_inject_Z (n : Z) : Py.round_half_even (inject_Z n) = n.
Proof.
  unfold Py.round_half_even. rewrite Qfloor_Z.
  assert (H : Py.Qlt_bool (inject_Z n - inject_Z n) (1 # 2) = true)
    by (apply Qlt_bool_iff; lra).
  now rewrite H.
Qed.

Lemma round_half_even_comp (x y : Q) :
  x == y -> Py.round_half_even x = Py.round_half_even y.
Proof.
  intros E. unfold Py.round_half_even.
  rewrite (Qfloor_comp _ _ E).
  set (f := Qfloor y).
  assert (H1 : Py.Qlt_bool (x - inject_Z f) (1 # 2)
               = Py.Qlt_bool (y - inject_Z f) (1 # 2)).
  { destruct (Py.Qlt_bool (y - inject_Z f) (1 # 2)) eqn:E1.
    - apply Qlt_bool_iff in E1. apply Qlt_bool_iff. lra.
    - apply Qlt_bool_false in E1. apply Qlt_bool_false. lra. }
  assert (H2 : Py.Qlt_bool (1 # 2) (x - inject_Z f)
               = Py.Qlt_bool (1 # 2) (y - inject_Z f)).
  { destruct (Py.Qlt_bool (1 # 2) (y - inject_Z f)) eqn:E1.
    - apply Qlt_bool_iff in E1. apply Qlt_bool_iff. lra.
    - apply Qlt_bool_false in E1. apply Qlt_bool_false. lra. }
  now rewrite H1, H2.
Qed.

Lemma round_half_even_mono (x y : Q) :
  x <= y -> (Py.round_half_even x <= Py.round_half_even y)%Z.
Proof.
  intros Hxy.
  pose proof (Qfloor_resp_le _ _ Hxy) as Hf.
  destruct (Z.eq_dec (Qfloor x) (Qfloor y)) as [E | NE].
  - unfold Py.round_half_even. rewrite <- E.
    set (f := Qfloor x).
    destruct (Py.Qlt_bool (x - inject_Z f) (1 # 2)) eqn:X1.
    + repeat match goal with |- context [if ?b then _ else _] => destruct b end; lia.
    + apply Qlt_bool_false in X1.
      assert (Y1 : Py.Qlt_bool (y - inject_Z f) (1 # 2) = false)
        by (apply Qlt_bool_false; lra).
      rewrite Y1.
      destruct (Py.Qlt_bool (1 # 2) (x - inject_Z f)) eqn:X2.
      * apply Qlt_bool_iff in X2.
        assert (Y2 : Py.Qlt_bool (1 # 2) (y - inject_Z f) = true)
          by (apply Qlt_bool_iff; lra).
        rewrite Y2. lia.
      * repeat match goal with |- context [if ?b then _ else _] => destruct b end; lia.
  - pose proof (round_half_even_floor x). pose proof (round_half_even_floor y). lia.
Qed.

Lemma pow10_pos (n : nat) : (0 < Py.pow10 n)%Z.
Proof. unfold Py.pow10. apply Z.pow_pos_nonneg; lia. Qed.

Lemma round_mono (x y : Q) (n : nat) : x <= y -> Py.round x n <= Py.round y n.
Proof.
  intros Hxy. unfold Py.round, Qdiv.
  pose proof (pow10_pos n) as HP.
  assert (HQ : 0 < inject_Z (Py.pow10 n))
    by (replace 0 with (inject_Z 0) by reflexivity; now rewrite <- Zlt_Qlt).
  apply Qmult_le_compat_r.
  - rewrite <- Zle_Qle. apply round_half_even_mono.
    apply Qmult_le_compat_r; [exact Hxy | lra].
  - apply Qinv_le_0_compat. lra.
Qed.

Lemma round_comp (x y : Q) (n : nat) : x == y -> Py.round x n = Py.round y n.
Proof.
  intros E. unfold Py.round.
  rewrite (round_half_even_comp (x * inject_Z (Py.pow10 n)) (y * inject_Z (Py.pow10 n)));
    [reflexivity | now rewrite E].
Qed.

(** Rounding keeps a value between two bounds that are themselves fixed
    by the rounding. *)
Lemma round_between (lo hi x : Q) (n : nat) :
  Py.round lo n == lo -> Py.round hi n == hi ->
  lo <= x <= hi -> lo <= Py.round x n <= hi.
Proof.
  intros Hlo Hhi [H1 H2]. split.
  - rewrite <- Hlo. now apply round_mono.
  - rewrite <- Hhi. now apply round_mono.
Qed.

(** ** Running the monadic loop *)

Lemma for_each_app {A} (l1 l2 : list A) (body : A -> M unit) (st : GenState) :
  for_each (l1 ++ l2) body st
  = match for_each l1 body st with
    | Py.Ok (_, st') => for_each l2 body st'
    | Py.Raise e => Py.Raise e
    end.
Proof.
  revert st. induction l1 as [| x l1 IH]; intros st; simpl.
  - reflexivity.
  - unfold bind. destruct (body x st) as [[[] st'] | e]; [apply IH | reflexivity].
Qed.

Lemma for_each_map {A B} (f : A -> B) (l : list A) (body : B -> M unit) (st : GenState) :
  for_each (map f l) body st = for_each l (fun a => body (f a)) st.
Proof.
  revert st. induction l as [| x l IH]; intros st; simpl; [reflexivity |].
  unfold bind. destruct (body (f x) st) as [[[] st'] | e]; [apply IH | reflexivity].
Qed.

Section Run.

Variable np_sin : Q -> Q.
Variables gauss unif : nat -> Q.

Lemma simulate_hive_run (hour day_of_year : Z) (hive : Hive) (st : GenState) :
  simulate_hive np_sin gauss unif hour day_of_year hive st
  = Py.Ok (sample_at np_sin gauss unif hour day_of_year hive (rng_calls st),
           mkGenState (rng_calls st + draws_used hour)
                      (cumulative_production st) (data st)).
Proof.
  unfold sample_at, draws_used, simulate_hive, bind, np_random_normal,
    np_random_uniform, ret.
  destruct st as [k cum rows]. simpl.
  destruct (in_hours 6 20 hour); simpl;
    (replace (k + 5)%nat with (S (S (S (S (S k))))) by lia);
    (replace (k + 4)%nat with (S (S (S (S k)))) by lia); reflexivity.
Qed.

Lemma production_efficiency_ok (hp act : Q) :
  production_efficiency hp act = Py.Ok (efficiency_value hp act).
Proof.
  unfold efficiency_value, production_efficiency, Py.truediv.
  destruct (Py.Qlt_bool 0 act) eqn:E; [| reflexivity].
  apply Qlt_bool_iff in E.
  destruct (Qeq_bool (act / 100) 0) eqn:Z; [| reflexivity].
  apply Qeq_bool_iff in Z.
  assert (H : act == act / 100 * 100) by field.
  rewrite Z in H. lra.
Qed.

Lemma record_reading_run (t : Z) (hive : Hive) (s : Sample) (st : GenState) (c : Q) :
  cumulative_production st !! id hive = Some c ->
  record_reading t hive s st
  = Py.Ok (tt, mkGenState (rng_calls st)
                 (<[id hive := c + hourly_production s]> (cumulative_production st))
                 (data st ++ [make_row t hive s (c + hourly_production s)
                                (efficiency_value (hourly_production s) (activity s))])).
Proof.
  intros Hc.
  unfold record_reading, bind, accumulate, read_cumulative, lift, append, Py.getitem.
  rewrite Hc. simpl. rewrite production_efficiency_ok.
  cbn [cumulative_production rng_calls data].
  rewrite lookup_insert_eq. reflexivity.
Qed.

Lemma record_reading_missing (t : Z) (hive : Hive) (s : Sample) (st : GenState) :
  cumulative_production st !! id hive = None ->
  record_reading t hive s st = Py.Raise Py.KeyError.
Proof.
  intros Hc. unfold record_reading, bind, accumulate, Py.getitem.
  now rewrite Hc.
Qed.

Lemma hive_body_run (t : Z) (hive : Hive) (st : GenState) (c : Q) :
  cumulative_production st !! id hive = Some c ->
  hive_body np_sin gauss unif t (Time.hour t) (Time.tm_yday t) hive st
  = Py.Ok (tt, mkGenState
                 (rng_calls st + draws_used (Time.hour t))
                 (<[id hive := total_after np_sin gauss unif t hive (rng_calls st)
                                 (cumulative_production st)]>
                    (cumulative_production st))
                 (data st ++ [row_at np_sin gauss unif t hive (rng_calls st)
                                (cumulative_production st)])).
Proof.
  intros Hc. unfold hive_body, bind. rewrite simulate_hive_run.
  rewrite (record_reading_run _ _ _ _ c) by exact Hc.
  unfold row_at, total_after. simpl. rewrite Hc. reflexivity.
Qed.

End Run.

Section Loop.

Variable np_sin : Q -> Q.
Variables gauss unif : nat -> Q.

Let pair_body (p : Z * Hive) : M unit :=
  hive_body np_sin gauss unif (fst p) (Time.hour (fst p)) (Time.tm_yday (fst p)) (snd p).

Lemma generate_rows_flat (time_range : list Z) (hives : list Hive) (st : GenState) :
  generate_rows np_sin gauss unif time_range hives st
  = for_each (grid_pairs time_range hives) pair_body st.
Proof.
  unfold generate_rows, grid_pairs. revert st.
  induction time_range as [| t ts IH]; intros st; [reflexivity |].
  cbn [for_each flat_map]. rewrite for_each_app, for_each_map.
  unfold bind at 1. unfold pair_body at 1. cbn [fst snd].
  destruct (for_each hives _ st) as [[[] st'] | e]; [apply IH | reflexivity].
Qed.

Lemma pairs_run (pairs : list (Z * Hive)) (st : GenState) :
  (forall p, In p pairs -> is_Some (cumulative_production st !! id (snd p))) ->
  exists st',
    for_each pairs pair_body st = Py.Ok (tt, st')
    /\ data st' = data st ++ rows_from np_sin gauss unif pairs (rng_calls st)
                                      (cumulative_production st)
    /\ (forall k, is_Some (cumulative_production st' !! k)
                  <-> is_Some (cumulative_production st !! k)).
Proof.
  revert st. induction pairs as [| [t hive] pairs IH]; intros st Hkeys.
  - exists st. cbn. rewrite app_nil_r. repeat split; auto.
  - destruct (Hkeys (t, hive) (or_introl eq_refl)) as [c Hc]. cbn [snd] in Hc.
    cbn [for_each]. unfold bind. unfold pair_body at 1. cbn [fst snd].
    rewrite (hive_body_run _ _ _ _ _ _ c Hc).
    set (st1 := mkGenState _ _ _).
    assert (Hdom : forall k, is_Some (cumulative_production st1 !! k)
                             <-> is_Some (cumulative_production st !! k)).
    { intros k. subst st1. cbn [cumulative_production].
      destruct (decide (id hive = k)) as [<- | NE].
      - rewrite lookup_insert_eq, Hc. split; eauto.
      - now rewrite lookup_insert_ne. }
    destruct (IH st1) as (st' & Hrun & Hdata & Hdom').
    { intros p Hp. apply Hdom. apply Hkeys. now right. }
    exists st'. split; [exact Hrun |]. split.
    + rewrite Hdata. subst st1. cbn [data rng_calls cumulative_production rows_from].
      now rewrite <- app_assoc.
    + intros k. rewrite Hdom'. apply Hdom.
Qed.

Lemma fold_insert_lookup (hives : list Hive) (d : gmap string Q) (k : string) :
  fold_left (fun d hive => <[id hive := 0]> d) hives d !! k
  = if in_dec string_dec k (map id hives) then Some 0 else d !! k.
Proof.
  revert d. induction hives as [| h hives IH]; intros d; cbn [fold_left map].
  - destruct (in_dec string_dec k []) as [[] | _]; reflexivity.
  - rewrite IH.
    destruct (in_dec string_dec k (map id hives)) as [Hin | Hnin].
    + destruct (in_dec string_dec k (id h :: map id hives)) as [_ | N]; [reflexivity |].
      exfalso. apply N. now right.
    + destruct (in_dec string_dec k (id h :: map id hives)) as [[E | Hin] | N].
      * subst k. apply lookup_insert_eq.
      * contradiction.
      * apply lookup_insert_ne. intros E. apply N. now left.
Qed.

Lemma init_cumulative_lookup (hives : list Hive) (h : Hive) :
  In h hives -> init_cumulative hives !! id h = Some 0.
Proof.
  intros Hin. unfold init_cumulative. rewrite fold_insert_lookup.
  destruct (in_dec string_dec (id h) (map id hives)) as [_ | N]; [reflexivity |].
  exfalso. apply N. now apply in_map.
Qed.

Lemma grid_pairs_In (time_range : list Z) (hives : list Hive) (p : Z * Hive) :
  In p (grid_pairs time_range hives) <-> In (fst p) time_range /\ In (snd p) hives.
Proof.
  unfold grid_pairs. rewrite in_flat_map. destruct p as [t h]. cbn [fst snd]. split.
  - intros (t' & Ht & Hp). apply in_map_iff in Hp as (h' & E & Hh).
    inversion E. subst. auto.
  - intros [Ht Hh]. exists t. split; [exact Ht |]. now apply in_map.
Qed.

(** The generator never raises: on every grid it returns the rows that
    [rows_from] lists, and the hive table. *)
Lemma generate_on_rows (time_range : list Z) :
  generate_on np_sin gauss unif time_range
  = Py.Ok (rows_from np_sin gauss unif (grid_pairs time_range hives_config) 0
                     (init_cumulative hives_config),
           hives_config).
Proof.
  unfold generate_on. rewrite generate_rows_flat.
  destruct (pairs_run (grid_pairs time_range hives_config) (init_state hives_config))
    as (st' & Hrun & Hdata & _).
  - intros p Hp. apply grid_pairs_In in Hp as [_ Hh].
    cbn [init_state cumulative_production].
    rewrite (init_cumulative_lookup _ _ Hh). eauto.
  - fold pair_body. rewrite Hrun, Hdata. reflexivity.
Qed.

End Loop.

(** ** One iteration: the simulated signals *)

Ltac unfold_sample :=
  unfold sample_at, simulate_hive, bind, np_random_normal, np_random_uniform, ret;
  cbn [rng_calls cumulative_production data].

Section Samples.

Variable np_sin : Q -> Q.
Variables gauss unif : nat -> Q.

Abbreviation sample := (sample_at np_sin gauss unif).

Lemma in_hours_spec (lo hi hour : Z) :
  in_hours lo hi hour = true <-> (lo <= hour <= hi)%Z.
Proof. unfold in_hours. rewrite andb_true_iff, !Z.leb_le. tauto. Qed.

Lemma in_hours_false (lo hi hour : Z) :
  in_hours lo hi hour = false <-> (hour < lo \/ hi < hour)%Z.
Proof.
  unfold in_hours. rewrite andb_false_iff, !Z.leb_gt. tauto.
Qed.

Lemma sample_activity_bounds (hour day_of_year : Z) (hive : Hive) (k : nat) :
  0 <= activity (sample hour day_of_year hive k) <= 100.
Proof.
  unfold_sample.
  destruct (in_hours 6 20 hour); cbn [activity]; apply clamp_bounds; lra.
Qed.

Lemma sample_humidity_bounds (hour day_of_year : Z) (hive : Hive) (k : nat) :
  30 <= humidity (sample hour day_of_year hive k) <= 90.
Proof.
  unfold_sample.
  destruct (in_hours 6 20 hour); cbn [humidity]; apply clamp_bounds; lra.
Qed.

Lemma sample_production_idle (hour day_of_year : Z) (hive : Hive) (k : nat) :
  in_hours 6 20 hour = false ->
  hourly_production (sample hour day_of_year hive k) = 0.
Proof. intros H. unfold_sample. rewrite H. reflexivity. Qed.

Lemma sample_production_active (hour day_of_year : Z) (hive : Hive) (k : nat) :
  in_hours 6 20 hour = true ->
  let s := sample hour day_of_year hive k in
  hourly_production s
  = base_hourly_production hive * temp_factor (temperature s)
    * humidity_factor (humidity s) * activity_factor (activity s)
    * seasonal_factor np_sin day_of_year
    * (0.7 + (1.3 - 0.7) * unif (k + 4)%nat).
Proof.
  intros H. unfold_sample. rewrite H. cbn.
  replace (k + 4)%nat with (S (S (S (S k)))) by lia. reflexivity.
Qed.

Lemma temp_factor_pos (x : Q) : 0 < temp_factor x <= 1.
Proof. unfold temp_factor. destruct (in_range 33 37 x); lra. Qed.

Lemma humidity_factor_pos (x : Q) : 0 < humidity_factor x <= 1.
Proof. unfold humidity_factor. destruct (in_range 45 65 x); lra. Qed.

Lemma production_multiplier_pos (hive : Hive) : 1 <= production_multiplier hive <= 1.5.
Proof. unfold production_multiplier. destruct (HiveType_eqb _ _); lra. Qed.

Lemma seasonal_factor_bounds (day_of_year : Z) :
  (forall x, -1 <= np_sin x <= 1) ->
  0.5 <= seasonal_factor np_sin day_of_year <= 1.3.
Proof.
  intros Hsin. unfold seasonal_factor.
  specialize (Hsin (2 * np_pi * inject_Z (day_of_year - 80) / 365)). lra.
Qed.

Lemma activity_factor_bounds (a : Q) : 0 <= a <= 100 -> 0 <= activity_factor a <= 1.
Proof.
  intros [H0 H1]. unfold activity_factor.
  assert (E : a == a / 100 * 100) by field.
  split.
  - apply Qle_shift_div_l; lra.
  - apply Qle_shift_div_r; lra.
Qed.

Lemma sample_production_nonneg (hour day_of_year : Z) (hive : Hive) (k : nat) :
  (forall x, -1 <= np_sin x <= 1) ->
  (forall i, 0 <= unif i <= 1) ->
  0 <= hourly_production (sample hour day_of_year hive k).
Proof.
  intros Hsin Hunif.
  destruct (in_hours 6 20 hour) eqn:E.
  - rewrite (sample_production_active _ _ _ _ E).
    unfold base_hourly_production.
    pose proof (production_multiplier_pos hive).
    pose proof (temp_factor_pos (temperature (sample hour day_of_year hive k))).
    pose proof (humidity_factor_pos (humidity (sample hour day_of_year hive k))).
    pose proof (activity_factor_bounds _ (sample_activity_bounds hour day_of_year hive k)).
    pose proof (seasonal_factor_bounds day_of_year Hsin).
    pose proof (Hunif (k + 4)%nat).
    generalize dependent (activity_factor (activity (sample hour day_of_year hive k))).
    intros af Haf.
    apply Qmult_le_0_compat; [| lra].
    apply Qmult_le_0_compat; [| lra].
    apply Qmult_le_0_compat; [| lra].
    apply Qmult_le_0_compat; [| lra].
    apply Qmult_le_0_compat; lra.
  - rewrite (sample_production_idle _ _ _ _ E). lra.
Qed.

End Samples.

(** ** The rows of a run *)

Section Rows.

Variable np_sin : Q -> Q.
Variables gauss unif : nat -> Q.

Abbreviation sample := (sample_at np_sin gauss unif).
Abbreviation rows := (rows_from np_sin gauss unif).

(** Every row is the row of one iteration, for a visited pair. *)
Lemma rows_from_origin (pairs : list (Z * Hive)) (k : nat) (cum : gmap string Q) :
  Forall (fun r => exists t hive k' cum',
              In (t, hive) pairs /\ r = row_at np_sin gauss unif t hive k' cum')
         (rows pairs k cum).
Proof.
  revert k cum. induction pairs as [| [t hive] pairs IH]; intros k cum; cbn [rows_from].
  - constructor.
  - constructor.
    + exists t, hive, k, cum. split; [now left | reflexivity].
    + eapply List.Forall_impl; [| apply IH].
      intros r (t' & h' & k' & cum' & Hin & E). exists t', h', k', cum'.
      split; [now right | exact E].
Qed.

Lemma rows_from_keys (pairs : list (Z * Hive)) (k : nat) (cum : gmap string Q) :
  map row_key (rows pairs k cum) = map (fun p => (fst p, id (snd p))) pairs.
Proof.
  revert k cum. induction pairs as [| [t hive] pairs IH]; intros k cum; cbn [rows_from map].
  - reflexivity.
  - now rewrite IH.
Qed.

Lemma rows_from_length (pairs : list (Z * Hive)) (k : nat) (cum : gmap string Q) :
  length (rows pairs k cum) = length pairs.
Proof.
  rewrite <- (length_map row_key), rows_from_keys. apply length_map.
Qed.

Lemma grid_pairs_length (time_range : list Z) (hives : list Hive) :
  length (grid_pairs time_range hives) = (length time_range * length hives)%nat.
Proof.
  unfold grid_pairs. induction time_range as [| t ts IH]; cbn [flat_map]; [reflexivity |].
  rewrite length_app, length_map, IH. reflexivity.
Qed.

Lemma grid_pairs_keys (time_range : list Z) (hives : list Hive) :
  map (fun p : Z * Hive => (fst p, id (snd p))) (grid_pairs time_range hives)
  = flat_map (fun t => map (fun h => (t, id h)) hives) time_range.
Proof.
  unfold grid_pairs. induction time_range as [| t ts IH]; cbn [flat_map]; [reflexivity |].
  rewrite map_app, IH, map_map. reflexivity.
Qed.

End Rows.

(** ** The claims about single rows *)

(** C5: whatever noise is drawn, every generated row has its
    [activity_level] in [[0, 100]] and its [humidity] in [[30, 90]]. *)
Theorem C5_activity_and_humidity_ranges
    (np_sin : Q -> Q) (gauss unif : nat -> Q) (time_range : list Z) :
  exists rows,
    generate_on np_sin gauss unif time_range = Py.Ok (rows, hives_config)
    /\ Forall (fun r => 0 <= r_activity_level r <= 100
                        /\ 30 <= r_humidity r <= 90) rows.
Proof.
  eexists. split; [apply generate_on_rows |].
  eapply List.Forall_impl; [| apply rows_from_origin].
  intros r (t & hive & k & cum & _ & ->). unfold row_at, make_row.
  cbn [r_activity_level r_humidity]. split.
  - apply round_between; [reflexivity | reflexivity | apply sample_activity_bounds].
  - apply round_between; [reflexivity | reflexivity | apply sample_humidity_bounds].
Qed.

(** The signals of an iteration in terms of the draws it makes: the
    iteration that starts after [k] calls uses the normal draws [k] to
    [k + 3]. *)
Lemma sample_at_signals (np_sin : Q -> Q) (gauss unif : nat -> Q)
    (hour day_of_year : Z) (hive : Hive) (k : nat) :
  let s := sample_at np_sin gauss unif hour day_of_year hive k in
  temperature s
  = 35 + 3 * np_sin (2 * np_pi * inject_Z hour / 24)
    + 2 * np_sin (2 * np_pi * inject_Z day_of_year / 365)
    + (0 + 0.5 * gauss k)
  /\ humidity s
     = Py.max 30 (Py.min 90
         (65 - 10 * np_sin (2 * np_pi * inject_Z hour / 24)
          + 5 * np_sin (2 * np_pi * inject_Z day_of_year / 365)
          + (0 + 2 * gauss (k + 1)%nat)))
  /\ activity s
     = Py.max 0 (Py.min 100
         ((if in_hours 6 18 hour
           then 50 + 30 * np_sin (2 * np_pi * inject_Z (hour - 6) / 12)
           else 20)
          + (0 + 10 * gauss (k + 3)%nat))).
Proof.
  replace (k + 1)%nat with (S k) by lia.
  replace (k + 3)%nat with (S (S (S k))) by lia.
  unfold_sample.
  destruct (in_hours 6 20 hour); cbn [temperature humidity activity];
    repeat split; reflexivity.
Qed.

(** The row at position [i] is the row of the [i]-th visited pair, computed
    after the draws of the pairs before it. *)
Lemma rows_from_lookup (np_sin : Q -> Q) (gauss unif : nat -> Q)
    (pairs : list (Z * Hive)) (k : nat) (cum : gmap string Q)
    (i : nat) (r : Reading) :
  rows_from np_sin gauss unif pairs k cum !! i = Some r ->
  exists t hive cum',
    pairs !! i = Some (t, hive)
    /\ r = row_at np_sin gauss unif t hive (k + draws_total (take i pairs)) cum'.
Proof.
  revert k cum i. induction pairs as [| [t hive] pairs IH]; intros k cum i Hr;
    cbn [rows_from] in Hr.
  - discriminate.
  - destruct i as [| i]; cbn in Hr.
    + inversion Hr. exists t, hive, cum. split; [reflexivity |].
      cbn [take]. unfold draws_total. cbn. now rewrite Nat.add_0_r.
    + destruct (IH _ _ _ Hr) as (t' & h' & cum' & Hp & ->).
      exists t', h', cum'. split; [exact Hp |].
      f_equal. cbn [take]. unfold draws_total, list_sum.
      cbn [map fold_right fst]. lia.
Qed.

(** C2: the hourly production of a generated row is 0 when the hour of its
    timestamp is outside [[6, 20]]; inside, it is the product of the base
    rate (0.008 times the hive-type multiplier), the temperature, humidity,
    activity and seasonal factors and the multiplier [0.7 + 0.6 * u] that
    [np.random.uniform(0.7, 1.3)] draws, which lies in [[0.7, 1.3]].  The
    factors are those of the temperature, humidity and activity that the
    iteration computes from its normal draws; the row carries the value
    rounded to four decimals. *)
Theorem C2_hourly_production
    (np_sin : Q -> Q) (gauss unif : nat -> Q) (time_range : list Z) :
  (forall i, 0 <= unif i <= 1) ->
  let pairs := grid_pairs time_range hives_config in
  exists rows,
    generate_on np_sin gauss unif time_range = Py.Ok (rows, hives_config)
    /\ length rows = length pairs
    /\ forall i r, rows !! i = Some r ->
         exists t hive,
           pairs !! i = Some (t, hive)
           /\ In hive hives_config
           /\ r_timestamp r = t
           /\ r_hive_id r = id hive
           /\ let hour := Time.hour t in
              let day_of_year := Time.tm_yday t in
              let k := draws_total (take i pairs) in
              let s := sample_at np_sin gauss unif hour day_of_year hive k in
              let u := 0.7 + (1.3 - 0.7) * unif (k + 4)%nat in
              temperature s
              = 35 + 3 * np_sin (2 * np_pi * inject_Z hour / 24)
                + 2 * np_sin (2 * np_pi * inject_Z day_of_year / 365)
                + (0 + 0.5 * gauss k)
              /\ humidity s
                 = Py.max 30 (Py.min 90
                     (65 - 10 * np_sin (2 * np_pi * inject_Z hour / 24)
                      + 5 * np_sin (2 * np_pi * inject_Z day_of_year / 365)
                      + (0 + 2 * gauss (k + 1)%nat)))
              /\ activity s
                 = Py.max 0 (Py.min 100
                     ((if in_hours 6 18 hour
                       then 50 + 30 * np_sin (2 * np_pi * inject_Z (hour - 6) / 12)
                       else 20)
                      + (0 + 10 * gauss (k + 3)%nat)))
              /\ r_hourly_production r = Py.round (hourly_production s) 4
              /\ ((hour < 6 \/ 20 < hour)%Z ->
                  hourly_production s = 0 /\ r_hourly_production r == 0)
              /\ ((6 <= hour <= 20)%Z ->
                  0.7 <= u <= 1.3
                  /\ hourly_production s
                     = 0.008 * production_multiplier hive
                       * temp_factor (temperature s)
                       * humidity_factor (humidity s)
                       * activity_factor (activity s)
                       * seasonal_factor np_sin day_of_year * u).
Proof.
  intros Hunif pairs. eexists. split; [apply generate_on_rows |].
  split; [apply rows_from_length |].
  intros i r Hr.
  apply rows_from_lookup in Hr as (t & hive & cum & Hp & ->).
  exists t, hive. split; [exact Hp |].
  assert (Hin : In hive hives_config).
  { apply list_elem_of_lookup_2, list_elem_of_In in Hp.
    now apply grid_pairs_In in Hp as [_ Hh]. }
  split; [exact Hin |]. split; [reflexivity |]. split; [reflexivity |].
  cbv zeta. rewrite Nat.add_0_l.
  set (k := draws_total (take i pairs)).
  destruct (sample_at_signals np_sin gauss unif (Time.hour t) (Time.tm_yday t) hive k)
    as (Ht & Hh & Ha).
  split; [exact Ht |]. split; [exact Hh |]. split; [exact Ha |].
  unfold row_at, make_row. cbn [r_hourly_production].
  split; [reflexivity |]. split.
  - intros H. apply in_hours_false in H.
    rewrite !(sample_production_idle _ _ _ _ _ _ _ H). split; reflexivity.
  - intros H. apply in_hours_spec in H. split.
    + specialize (Hunif (k + 4)%nat). lra.
    + apply (sample_production_active np_sin gauss unif _ _ hive k H).
Qed.

Lemma C2_hourly_production_witness :
  let np_sin := sin_approx in
  let gauss := zero_draws in
  let unif := half_draws in
  let pairs := grid_pairs [sample_now] hives_config in
  exists rows,
    generate_on np_sin gauss unif [sample_now] = Py.Ok (rows, hives_config)
    /\ length rows = length pairs
    /\ forall i r, rows !! i = Some r ->
         exists t hive,
           pairs !! i = Some (t, hive)
           /\ In hive hives_config
           /\ r_timestamp r = t
           /\ r_hive_id r = id hive
           /\ let hour := Time.hour t in
              let day_of_year := Time.tm_yday t in
              let k := draws_total (take i pairs) in
              let s := sample_at np_sin gauss unif hour day_of_year hive k in
              let u := 0.7 + (1.3 - 0.7) * unif (k + 4)%nat in
              temperature s
              = 35 + 3 * np_sin (2 * np_pi * inject_Z hour / 24)
                + 2 * np_sin (2 * np_pi * inject_Z day_of_year / 365)
                + (0 + 0.5 * gauss k)
              /\ humidity s
                 = Py.max 30 (Py.min 90
                     (65 - 10 * np_sin (2 * np_pi * inject_Z hour / 24)
                      + 5 * np_sin (2 * np_pi * inject_Z day_of_year / 365)
                      + (0 + 2 * gauss (k + 1)%nat)))
              /\ activity s
                 = Py.max 0 (Py.min 100
                     ((if in_hours 6 18 hour
                       then 50 + 30 * np_sin (2 * np_pi * inject_Z (hour - 6) / 12)
                       else 20)
                      + (0 + 10 * gauss (k + 3)%nat)))
              /\ r_hourly_production r = Py.round (hourly_production s) 4
              /\ ((hour < 6 \/ 20 < hour)%Z ->
                  hourly_production s = 0 /\ r_hourly_production r == 0)
              /\ ((6 <= hour <= 20)%Z ->
                  0.7 <= u <= 1.3
                  /\ hourly_production s
                     = 0.008 * production_multiplier hive
                       * temp_factor (temperature s)
                       * humidity_factor (humidity s)
                       * activity_factor (activity s)
                       * seasonal_factor np_sin day_of_year * u).
Proof.
  apply (C2_hourly_production sin_approx zero_draws half_draws [sample_now]).
  intros i. unfold half_draws. split; discriminate.
Defined.

Lemma sin_approx_range (x : Q) : -1 <= sin_approx x <= 1.
Proof. unfold sin_approx. apply clamp_bounds. lra. Qed.

Lemma in_range_spec (lo hi x : Q) : in_range lo hi x = true <-> lo <= x <= hi.
Proof. unfold in_range. rewrite andb_true_iff, !Qle_bool_iff. tauto. Qed.

(** C4: for a master hive at hour 12 of day 172 whose activity is 100,
    temperature in [[33, 37]] and humidity in [[45, 65]], the hourly
    production is positive and at most
    [0.008 * 1.5 * 1.3 * seasonal_factor 172]. *)
Theorem C4_master_solstice_noon
    (np_sin : Q -> Q) (gauss unif : nat -> Q) (hive : Hive) (k : nat) :
  (forall x, -1 <= np_sin x <= 1) ->
  (forall i, 0 <= unif i <= 1) ->
  type hive = master ->
  let s := sample_at np_sin gauss unif 12 172 hive k in
  activity s == 100 ->
  33 <= temperature s <= 37 ->
  45 <= humidity s <= 65 ->
  0 < hourly_production s
  /\ hourly_production s <= 0.008 * 1.5 * 1.3 * seasonal_factor np_sin 172.
Proof.
  intros Hsin Hunif Hty s Hact Htemp Hhum. subst s.
  rewrite (sample_production_active np_sin gauss unif 12 172 hive k eq_refl).
  cbv zeta.
  set (s := sample_at np_sin gauss unif 12 172 hive k) in *.
  unfold base_hourly_production, production_multiplier, temp_factor, humidity_factor.
  rewrite Hty. cbn [HiveType_eqb].
  apply in_range_spec in Htemp. apply in_range_spec in Hhum. rewrite Htemp, Hhum.
  assert (Haf : activity_factor (activity s) == 1)
    by (unfold activity_factor; rewrite Hact; reflexivity).
  rewrite Haf.
  pose proof (seasonal_factor_bounds np_sin 172 Hsin) as Hsf.
  pose proof (Hunif (k + 4)%nat) as Hu.
  set (sf := seasonal_factor np_sin 172) in *.
  set (u := unif (k + 4)%nat) in *.
  split; nra.
Qed.

Lemma C4_master_solstice_noon_witness :
  let s := sample_at sin_approx solstice_gauss half_draws 12 172 master_001 0 in
  0 < hourly_production s
  /\ hourly_production s <= 0.008 * 1.5 * 1.3 * seasonal_factor sin_approx 172.
Proof.
  apply (C4_master_solstice_noon sin_approx solstice_gauss half_draws master_001 0).
  - apply sin_approx_range.
  - intros i. unfold half_draws. split; discriminate.
  - reflexivity.
  - vm_compute. reflexivity.
  - vm_compute. split; discriminate.
  - vm_compute. split; discriminate.
Defined.

(** C6: in the hive table every worker names, as its [master_id], the [id]
    of a master of the table, and every master has no [master_id]. *)
Theorem C6_topology_references :
  length hives_config = 7%nat
  /\ Forall (fun h =>
       match type h with
       | worker => exists m, In m hives_config /\ type m = master
                             /\ master_id h = Some (id m)
       | master => master_id h = None
       end) hives_config.
Proof.
  split; [reflexivity |].
  assert (M1 : In master_001 hives_config) by (now left).
  assert (M2 : In (mkHive "master_002" "Master Hive Beta" master "South Field" None)
                  hives_config) by (do 4 right; now left).
  unfold hives_config.
  repeat constructor; cbn [type master_id];
    (reflexivity
     || (eexists; split; [exact M1 | split; reflexivity])
     || (eexists; split; [exact M2 | split; reflexivity])).
Qed.

(** ** The hourly grid *)

Lemma date_range_head (s e : Z) :
  (s <= e)%Z -> exists rest, Time.date_range s e = s :: rest.
Proof.
  intros Hse. unfold Time.date_range.
  destruct (Z.ltb_spec e s) as [H | _]; [lia |].
  cbn [seq map]. eexists. f_equal. cbn. lia.
Qed.

Lemma date_range_30_days (now : Z) :
  length (Time.date_range (now - Time.timedelta_days 30) now) = 721%nat.
Proof.
  unfold Time.date_range, Time.timedelta_days, Time.us_per_day, Time.us_per_hour.
  destruct (Z.ltb_spec now (now - 30 * (24 * (3600 * 1000000)))) as [H | _]; [lia |].
  rewrite length_map, length_seq.
  replace (now - (now - 30 * (24 * (3600 * 1000000))))%Z
    with (720 * (3600 * 1000000))%Z by lia.
  rewrite Z.div_mul by lia. reflexivity.
Qed.

Lemma map_seq_sorted (f : nat -> Z) (a n : nat) :
  (forall i j, (i < j)%nat -> (f i < f j)%Z) ->
  StronglySorted Z.lt (map f (seq a n)).
Proof.
  intros Hf. revert a. induction n as [| n IH]; intros a; cbn [seq map].
  - constructor.
  - constructor; [apply IH |].
    apply List.Forall_forall. intros y Hy.
    apply in_map_iff in Hy as (j & <- & Hj). apply in_seq in Hj. apply Hf. lia.
Qed.

Lemma date_range_sorted (s e : Z) : StronglySorted Z.lt (Time.date_range s e).
Proof.
  unfold Time.date_range. destruct (e <? s)%Z; [constructor |].
  apply map_seq_sorted. intros i j Hij. unfold Time.us_per_hour. lia.
Qed.

Lemma sorted_NoDup (l : list Z) : StronglySorted Z.lt l -> List.NoDup l.
Proof.
  induction 1 as [| x l _ IH Hx]; constructor; [| exact IH].
  intros Hin. rewrite List.Forall_forall in Hx.
  specialize (Hx x Hin). lia.
Qed.

(** ** The first row of a run *)

Lemma first_row (np_sin : Q -> Q) (gauss unif : nat -> Q) (now : Z) :
  exists rest,
    generate_beehive_data np_sin gauss unif now
    = Py.Ok (row_at np_sin gauss unif (now - Time.timedelta_days 30) master_001 0
                    (init_cumulative hives_config) :: rest,
             hives_config).
Proof.
  unfold generate_beehive_data. rewrite generate_on_rows.
  destruct (date_range_head (now - Time.timedelta_days 30) now) as [rest ->].
  - unfold Time.timedelta_days, Time.us_per_day, Time.us_per_hour. lia.
  - unfold grid_pairs, hives_config. cbn [flat_map map app rows_from].
    eexists. reflexivity.
Qed.

(** ** Efficiency and activity *)

(** C3, as the code has it: the efficiency of a row is 0 whenever the
    activity computed in that iteration is 0, the guarded division is never
    a division by zero, and the run raises no exception.  The row carries
    the activity rounded to an integer and the efficiency rounded to four
    decimals. *)
Theorem C3_efficiency_of_idle_hive
    (np_sin : Q -> Q) (gauss unif : nat -> Q) (time_range : list Z) :
  exists rows,
    generate_on np_sin gauss unif time_range = Py.Ok (rows, hives_config)
    /\ Forall (fun r => exists hive k,
         let s := sample_at np_sin gauss unif (Time.hour (r_timestamp r))
                            (Time.tm_yday (r_timestamp r)) hive k in
         r_hive_id r = id hive
         /\ r_activity_level r = Py.round (activity s) 0
         /\ (exists e, production_efficiency (hourly_production s) (activity s) = Py.Ok e
                       /\ r_production_efficiency r = Py.round e 4)
         /\ (activity s == 0 ->
             r_activity_level r == 0 /\ r_production_efficiency r == 0)
         /\ (0 < activity s -> ~ activity s / 100 == 0)) rows.
Proof.
  eexists. split; [apply generate_on_rows |].
  eapply List.Forall_impl; [| apply rows_from_origin].
  intros r (t & hive & k & cum & _ & ->). exists hive, k.
  unfold row_at, make_row.
  cbn [r_timestamp r_hive_id r_activity_level r_production_efficiency].
  set (s := sample_at _ _ _ _ _ _ _).
  split; [reflexivity |]. split; [reflexivity |]. split; [| split].
  - eexists. split; [apply production_efficiency_ok | reflexivity].
  - intros Hz. split.
    + rewrite (round_comp _ 0 0 Hz). reflexivity.
    + unfold efficiency_value, production_efficiency.
      assert (E : Py.Qlt_bool 0 (activity s) = false) by (apply Qlt_bool_false; lra).
      rewrite E. reflexivity.
  - intros Hpos Hz.
    assert (H : activity s == activity s / 100 * 100) by field.
    rewrite Hz in H. lra.
Qed.

(** C3 as stated fails: in the run that starts at 20:00 with an activity
    noise of -19.7, the first row has [activity_level] 0 (activity 0.3
    rounded) and [production_efficiency] 0.0042. *)
Lemma C3_counterexample :
  exists rows r,
    generate_beehive_data sin_approx evening_gauss half_draws
      (evening + Time.timedelta_days 30)
    = Py.Ok (rows, hives_config)
    /\ In r rows
    /\ r_activity_level r == 0
    /\ ~ r_production_efficiency r == 0.
Proof.
  destruct (first_row sin_approx evening_gauss half_draws
              (evening + Time.timedelta_days 30)) as [rest H].
  eexists. eexists. split; [exact H |]. split; [now left |].
  split; vm_compute; [reflexivity | discriminate].
Qed.

(** ** Cumulative production *)

Lemma hive_total_nonneg (hid : string) (trace : list (string * Q)) :
  List.Forall (fun e => 0 <= snd e) trace -> 0 <= hive_total hid trace.
Proof.
  induction 1 as [| [h p] trace Hp _ IH]; cbn [hive_total]; [lra |].
  cbn [snd] in Hp. destruct (String.eqb h hid); lra.
Qed.

Lemma hive_total_take_mono (hid : string) (trace : list (string * Q)) (i j : nat) :
  List.Forall (fun e => 0 <= snd e) trace ->
  (i <= j)%nat ->
  hive_total hid (take i trace) <= hive_total hid (take j trace).
Proof.
  intros Hnn. revert i j.
  induction Hnn as [| [h p] trace Hp Hnn IH]; intros i j Hij.
  - rewrite !take_nil. lra.
  - destruct i as [| i]; destruct j as [| j]; try lia.
    + cbn [take hive_total]. lra.
    + cbn [take].
      change ((h, p) :: take j trace) with (take (S j) ((h, p) :: trace)).
      apply hive_total_nonneg, Forall_take. now constructor.
    + cbn [take hive_total].
      assert (Hle : (i <= j)%nat) by lia.
      specialize (IH i j Hle). lra.
Qed.

Section Cumulative.

Variable np_sin : Q -> Q.
Variables gauss unif : nat -> Q.

Abbreviation rows := (rows_from np_sin gauss unif).
Abbreviation trace := (production_trace np_sin gauss unif).

Lemma rows_from_trace (pairs : list (Z * Hive)) (k : nat) (cum : gmap string Q)
    (i : nat) (r : Reading) :
  rows pairs k cum !! i = Some r ->
  exists p, trace pairs k !! i = Some (r_hive_id r, p)
            /\ r_hourly_production r = Py.round p 4.
Proof.
  revert k cum i.
  induction pairs as [| [t hive] pairs IH]; intros k cum i Hr;
    cbn [rows_from production_trace] in *.
  - discriminate.
  - destruct i as [| i]; cbn in Hr.
    + inversion Hr. subst r. eexists. split; reflexivity.
    + apply (IH _ _ _ Hr).
Qed.

Lemma rows_from_total (pairs : list (Z * Hive)) (k : nat) (cum : gmap string Q)
    (i : nat) (r : Reading) :
  rows pairs k cum !! i = Some r ->
  r_cumulative_production r
  = Py.round (default 0 (cum !! r_hive_id r)
              + hive_total (r_hive_id r) (take (S i) (trace pairs k))) 3.
Proof.
  revert k cum i.
  induction pairs as [| [t hive] pairs IH]; intros k cum i Hr;
    cbn [rows_from production_trace] in *.
  - discriminate.
  - destruct i as [| i]; cbn in Hr.
    + inversion Hr. subst r. unfold row_at, make_row.
      cbn [r_cumulative_production r_hive_id take hive_total].
      rewrite String.eqb_refl. apply round_comp.
      unfold total_after. rewrite take_0. cbn [hive_total]. lra.
    + rewrite (IH _ _ _ Hr). apply round_comp.
      cbn [take hive_total].
      destruct (String.eqb_spec (id hive) (r_hive_id r)) as [E | NE].
      * rewrite <- E, lookup_insert_eq. cbn [default from_option Datatypes.id].
        unfold total_after. lra.
      * rewrite lookup_insert_ne by exact NE. lra.
Qed.

Hypothesis np_sin_range : forall x, -1 <= np_sin x <= 1.
Hypothesis unif_range : forall i, 0 <= unif i <= 1.

Lemma trace_nonneg (pairs : list (Z * Hive)) (k : nat) :
  List.Forall (fun e => 0 <= snd e) (trace pairs k).
Proof.
  revert k. induction pairs as [| [t hive] pairs IH]; intros k;
    cbn [production_trace]; constructor; [| apply IH].
  cbn [snd]. now apply sample_production_nonneg.
Qed.

Lemma rows_from_monotone (pairs : list (Z * Hive)) (k : nat) (cum : gmap string Q)
    (i j : nat) (ri rj : Reading) :
  (i <= j)%nat ->
  rows pairs k cum !! i = Some ri ->
  rows pairs k cum !! j = Some rj ->
  r_hive_id ri = r_hive_id rj ->
  r_cumulative_production ri <= r_cumulative_production rj.
Proof.
  intros Hij Hi Hj Hid.
  rewrite (rows_from_total _ _ _ _ _ Hi), (rows_from_total _ _ _ _ _ Hj), Hid.
  apply round_mono.
  assert (Hle : (S i <= S j)%nat) by lia.
  pose proof (hive_total_take_mono (r_hive_id rj) (trace pairs k) (S i) (S j)
                (trace_nonneg pairs k) Hle).
  lra.
Qed.

End Cumulative.

Lemma init_cumulative_default (hives : list Hive) (k : string) :
  default 0 (init_cumulative hives !! k) = 0.
Proof.
  unfold init_cumulative. rewrite fold_insert_lookup.
  destruct (in_dec string_dec k (map id hives)); [reflexivity |].
  now rewrite lookup_empty.
Qed.

(** C1, as the code has it: for each hive the emitted [cumulative_production]
    is non-decreasing along the rows, and in every row it is the running sum
    of that hive's hourly productions (the values before rounding, up to and
    including this row) rounded to three decimals; the emitted
    [hourly_production] is the same value rounded to four decimals. *)
Theorem C1_cumulative_production
    (np_sin : Q -> Q) (gauss unif : nat -> Q) (time_range : list Z) :
  (forall x, -1 <= np_sin x <= 1) ->
  (forall i, 0 <= unif i <= 1) ->
  let trace := production_trace np_sin gauss unif
                 (grid_pairs time_range hives_config) 0 in
  exists rows,
    generate_on np_sin gauss unif time_range = Py.Ok (rows, hives_config)
    /\ (forall i r, rows !! i = Some r ->
          (exists p, trace !! i = Some (r_hive_id r, p)
                     /\ r_hourly_production r = Py.round p 4)
          /\ r_cumulative_production r
             = Py.round (hive_total (r_hive_id r) (take (S i) trace)) 3)
    /\ (forall i j ri rj,
          (i <= j)%nat -> rows !! i = Some ri -> rows !! j = Some rj ->
          r_hive_id ri = r_hive_id rj ->
          r_cumulative_production ri <= r_cumulative_production rj).
Proof.
  intros Hsin Hunif trace. eexists. split; [apply generate_on_rows |]. split.
  - intros i r Hr. split; [now apply rows_from_trace in Hr |].
    rewrite (rows_from_total _ _ _ _ _ _ _ _ Hr), init_cumulative_default.
    apply round_comp. subst trace. lra.
  - intros i j ri rj. now apply rows_from_monotone.
Qed.

Lemma C1_cumulative_production_witness :
  let trace := production_trace sin_approx zero_draws half_draws
                 (grid_pairs [sample_now] hives_config) 0 in
  exists rows,
    generate_on sin_approx zero_draws half_draws [sample_now]
    = Py.Ok (rows, hives_config)
    /\ (forall i r, rows !! i = Some r ->
          (exists p, trace !! i = Some (r_hive_id r, p)
                     /\ r_hourly_production r = Py.round p 4)
          /\ r_cumulative_production r
             = Py.round (hive_total (r_hive_id r) (take (S i) trace)) 3)
    /\ (forall i j ri rj,
          (i <= j)%nat -> rows !! i = Some ri -> rows !! j = Some rj ->
          r_hive_id ri = r_hive_id rj ->
          r_cumulative_production ri <= r_cumulative_production rj).
Proof.
  apply (C1_cumulative_production sin_approx zero_draws half_draws [sample_now]).
  - apply sin_approx_range.
  - intros i. unfold half_draws. split; discriminate.
Defined.

(** C1 as stated fails: in the first row of the run that ends at
    [sample_now] the emitted [cumulative_production] is 0.002, while the
    only hourly production summed so far is 0.0024 as emitted and
    29521863/12542980000 before rounding. *)
Lemma C1_counterexample :
  exists r rest,
    generate_beehive_data sin_approx zero_draws half_draws sample_now
    = Py.Ok (r :: rest, hives_config)
    /\ r_hive_id r = "master_001"%string
    /\ r_cumulative_production r == 0.002
    /\ r_hourly_production r == 0.0024
    /\ hourly_production
         (sample_at sin_approx zero_draws half_draws
            (Time.hour (r_timestamp r)) (Time.tm_yday (r_timestamp r)) master_001 0)
       == 29521863 # 12542980000
    /\ ~ r_cumulative_production r == r_hourly_production r
    /\ ~ r_cumulative_production r
         == hourly_production
              (sample_at sin_approx zero_draws half_draws
                 (Time.hour (r_timestamp r)) (Time.tm_yday (r_timestamp r))
                 master_001 0).
Proof.
  destruct (first_row sin_approx zero_draws half_draws sample_now) as [rest H].
  eexists. eexists. split; [exact H |].
  repeat split; vm_compute; (reflexivity || discriminate).
Qed.

(** ** Row count and row order *)

Lemma product_keys_NoDup (ts : list Z) (ids : list string) :
  List.NoDup ts -> List.NoDup ids ->
  List.NoDup (flat_map (fun t => map (fun i => (t, i)) ids) ts).
Proof.
  intros Hts Hids. induction Hts as [| t ts Hnin _ IH]; cbn [flat_map].
  - constructor.
  - apply List.NoDup_app.
    + apply Finite.Injective_map_NoDup; [| exact Hids].
      intros a b E. now inversion E.
    + exact IH.
    + intros [t' i] H1 H2.
      apply in_map_iff in H1 as (a & E & _). inversion E. subst.
      apply in_flat_map in H2 as (t2 & Ht2 & H2).
      apply in_map_iff in H2 as (b & E2 & _). inversion E2. subst. contradiction.
Qed.

Lemma hive_ids_NoDup : List.NoDup (map id hives_config).
Proof.
  unfold hives_config. cbn [map id].
  repeat constructor; cbn [In]; intros H;
    repeat (destruct H as [H | H]; [discriminate |]); exact H.
Qed.

Lemma hive_keys (t : Z) (hives : list Hive) :
  map (fun h => (t, id h)) hives = map (fun i => (t, i)) (map id hives).
Proof. now rewrite map_map. Qed.

Lemma hive_keys_length (ts : list Z) (ids : list string) :
  (length ts * length ids)%nat
  = length (flat_map (fun t => map (fun i => (t, i)) ids) ts).
Proof.
  induction ts as [| t ts IH]; cbn [flat_map]; [reflexivity |].
  rewrite length_app, length_map, <- IH. reflexivity.
Qed.

Lemma generated_keys (np_sin : Q -> Q) (gauss unif : nat -> Q) (time_range : list Z) :
  exists rows,
    generate_on np_sin gauss unif time_range = Py.Ok (rows, hives_config)
    /\ map row_key rows
       = flat_map (fun t => map (fun i => (t, i)) (map id hives_config)) time_range.
Proof.
  eexists. split; [apply generate_on_rows |].
  rewrite rows_from_keys, grid_pairs_keys.
  apply flat_map_ext. intros t. apply hive_keys.
Qed.

(** C7: a run yields one row for each pair of an hourly timestamp of the
    30-day window and a hive, and no other row: 721 timestamps times 7
    hives. *)
Theorem C7_row_count (np_sin : Q -> Q) (gauss unif : nat -> Q) (now : Z) :
  let time_range := Time.date_range (now - Time.timedelta_days 30) now in
  exists rows,
    generate_beehive_data np_sin gauss unif now = Py.Ok (rows, hives_config)
    /\ length time_range = 721%nat
    /\ length hives_config = 7%nat
    /\ length rows = (length time_range * length hives_config)%nat
    /\ (forall t hive, In t time_range -> In hive hives_config ->
          count_occ key_eq_dec (map row_key rows) (t, id hive) = 1%nat)
    /\ (forall r, In r rows ->
          In (r_timestamp r) time_range
          /\ exists hive, In hive hives_config /\ r_hive_id r = id hive).
Proof.
  intros time_range.
  destruct (generated_keys np_sin gauss unif time_range) as (rows & Hrun & Hkeys).
  exists rows. split; [exact Hrun |].
  split; [apply date_range_30_days |]. split; [reflexivity |].
  assert (Hin : forall t i, In (t, i) (map row_key rows)
                            <-> In t time_range /\ In i (map id hives_config)).
  { intros t i. rewrite Hkeys, in_flat_map. split.
    - intros (t' & Ht & H). apply in_map_iff in H as (a & E & Ha).
      inversion E. subst. auto.
    - intros [Ht Hi]. exists t. split; [exact Ht |].
      apply in_map_iff. eauto. }
  split; [| split].
  - rewrite <- (length_map row_key), Hkeys.
    rewrite <- hive_keys_length, length_map. reflexivity.
  - intros t hive Ht Hh.
    apply (proj1 (List.NoDup_count_occ' key_eq_dec (map row_key rows))).
    + rewrite Hkeys. apply product_keys_NoDup;
        [apply sorted_NoDup, date_range_sorted | apply hive_ids_NoDup].
    + apply Hin. split; [exact Ht | now apply in_map].
  - intros r Hr.
    assert (Hk : In (row_key r) (map row_key rows)) by now apply in_map.
    apply Hin in Hk as [Ht Hi]. split; [exact Ht |].
    apply in_map_iff in Hi as (hive & E & Hh). eauto.
Qed.

(** C8: the rows come timestamp-major and hive-minor: the timestamps of the
    window in ascending order and, for each of them, the hives in the order
    of the hive table. *)
Theorem C8_row_order (np_sin : Q -> Q) (gauss unif : nat -> Q) (now : Z) :
  let time_range := Time.date_range (now - Time.timedelta_days 30) now in
  exists rows,
    generate_beehive_data np_sin gauss unif now = Py.Ok (rows, hives_config)
    /\ StronglySorted Z.lt time_range
    /\ map row_key rows
       = flat_map (fun t => map (fun hive => (t, id hive)) hives_config) time_range.
Proof.
  intros time_range.
  destruct (generated_keys np_sin gauss unif time_range) as (rows & Hrun & Hkeys).
  exists rows. split; [exact Hrun |]. split; [apply date_range_sorted |].
  rewrite Hkeys. apply flat_map_ext. intros t. symmetry. apply hive_keys.
Qed.

(** ** The accumulator *)

(** C9: the iteration for one hive succeeds when the hive has an entry in
    the accumulator, and leaves the entry of every other identifier as it
    was. *)
Theorem C9_accumulator_frame
    (np_sin : Q -> Q) (gauss unif : nat -> Q)
    (timestamp hour day_of_year : Z) (hive : Hive) (st : GenState) :
  is_Some (cumulative_production st !! id hive) ->
  exists st',
    hive_body np_sin gauss unif timestamp hour day_of_year hive st = Py.Ok (tt, st')
    /\ forall k, k <> id hive ->
         cumulative_production st' !! k = cumulative_production st !! k.
Proof.
  intros [c Hc]. unfold hive_body, bind. rewrite simulate_hive_run.
  erewrite record_reading_run by exact Hc.
  eexists. split; [reflexivity |].
  intros k Hk. cbn [cumulative_production].
  apply lookup_insert_ne. congruence.
Qed.

Lemma C9_accumulator_frame_witness :
  exists st',
    hive_body sin_approx zero_draws half_draws sample_now
      (Time.hour sample_now) (Time.tm_yday sample_now) master_001
      (init_state hives_config) = Py.Ok (tt, st')
    /\ forall k, k <> id master_001 ->
         cumulative_production st' !! k
         = cumulative_production (init_state hives_config) !! k.
Proof.
  apply (C9_accumulator_frame sin_approx zero_draws half_draws sample_now
           (Time.hour sample_now) (Time.tm_yday sample_now) master_001
           (init_state hives_config)).
  exists 0. vm_compute. reflexivity.
Defined.

(** ** Dependence on the random draws *)

Lemma sample_at_ext (np_sin : Q -> Q) (g1 u1 g2 u2 : nat -> Q)
    (hour day_of_year : Z) (hive : Hive) (k : nat) :
  (forall i, (k <= i < k + 5)%nat -> g1 i = g2 i /\ u1 i = u2 i) ->
  sample_at np_sin g1 u1 hour day_of_year hive k
  = sample_at np_sin g2 u2 hour day_of_year hive k.
Proof.
  intros H. unfold_sample.
  assert (E0 : g1 k = g2 k) by (apply H; lia).
  assert (E1 : g1 (S k) = g2 (S k)) by (apply H; lia).
  assert (E2 : g1 (S (S k)) = g2 (S (S k))) by (apply H; lia).
  assert (E3 : g1 (S (S (S k))) = g2 (S (S (S k)))) by (apply H; lia).
  assert (E4 : u1 (S (S (S (S k)))) = u2 (S (S (S (S k))))) by (apply H; lia).
  rewrite E0, E1, E2, E3.
  destruct (in_hours 6 20 hour); cbn; [rewrite E4 |]; reflexivity.
Qed.

Lemma draws_used_le (hour : Z) : (draws_used hour <= 5)%nat.
Proof. unfold draws_used. destruct (in_hours 6 20 hour); lia. Qed.

Lemma rows_from_ext (np_sin : Q -> Q) (g1 u1 g2 u2 : nat -> Q)
    (pairs : list (Z * Hive)) (k : nat) (cum : gmap string Q) :
  (forall i, (k <= i < k + 5 * length pairs)%nat -> g1 i = g2 i /\ u1 i = u2 i) ->
  rows_from np_sin g1 u1 pairs k cum = rows_from np_sin g2 u2 pairs k cum.
Proof.
  revert k cum. induction pairs as [| [t hive] pairs IH]; intros k cum H;
    cbn [rows_from]; [reflexivity |].
  cbn [length] in H.
  assert (Es : sample_at np_sin g1 u1 (Time.hour t) (Time.tm_yday t) hive k
               = sample_at np_sin g2 u2 (Time.hour t) (Time.tm_yday t) hive k)
    by (apply sample_at_ext; intros i Hi; apply H; lia).
  unfold row_at, total_after. rewrite Es. f_equal.
  apply IH. intros i Hi. apply H.
  pose proof (draws_used_le (Time.hour t)). lia.
Qed.

(** C10: with the time grid and the random draws as inputs, the result is
    a function of the grid and of the draws that the run consumes: two
    draw sequences that agree on the first [5 * 7 * length time_range]
    calls give the same rows and the same hive table. *)
Theorem C10_determinism
    (np_sin : Q -> Q) (g1 u1 g2 u2 : nat -> Q) (time_range : list Z) :
  (forall i, (i < 5 * (length time_range * length hives_config))%nat ->
             g1 i = g2 i /\ u1 i = u2 i) ->
  exists rows,
    generate_on np_sin g1 u1 time_range = Py.Ok (rows, hives_config)
    /\ generate_on np_sin g2 u2 time_range = Py.Ok (rows, hives_config).
Proof.
  intros H. eexists. split; [apply generate_on_rows |].
  rewrite generate_on_rows. do 2 f_equal. symmetry.
  apply rows_from_ext. intros i Hi. apply H.
  rewrite grid_pairs_length in Hi. lia.
Qed.

Lemma C10_determinism_witness :
  exists rows,
    generate_on sin_approx zero_draws half_draws [sample_now]
    = Py.Ok (rows, hives_config)
    /\ generate_on sin_approx late_draws half_draws [sample_now]
       = Py.Ok (rows, hives_config).
Proof.
  apply (C10_determinism sin_approx zero_draws half_draws late_draws half_draws
           [sample_now]).
  intros i Hi. split; [| reflexivity].
  unfold zero_draws, late_draws.
  destruct (Nat.ltb_spec i 35) as [_ | Hge]; [reflexivity |].
  cbn in Hi. lia.
Defined.

(** * Further properties of the generator *)

(** ** An iteration without an accumulator entry *)

Lemma hive_body_missing (np_sin : Q -> Q) (gauss unif : nat -> Q)
    (t hour day_of_year : Z) (hive : Hive) (st : GenState) :
  cumulative_production st !! id hive = None ->
  hive_body np_sin gauss unif t hour day_of_year hive st = Py.Raise Py.KeyError.
Proof.
  intros Hc. unfold hive_body, bind. rewrite simulate_hive_run.
  now apply record_reading_missing.
Qed.

Lemma grid_pairs_cons (t : Z) (ts : list Z) (hives : list Hive) :
  grid_pairs (t :: ts) hives = map (pair t) hives ++ grid_pairs ts hives.
Proof. reflexivity. Qed.

(** ** The loops on any hive table *)

Lemma flat_keys (time_range : list Z) (hives : list Hive) :
  map (fun p : Z * Hive => (fst p, id (snd p))) (grid_pairs time_range hives)
  = flat_map (fun t => map (fun h => (t, id h)) hives) time_range.
Proof. apply grid_pairs_keys. Qed.

(** X2: for any time grid and any hive table whose identifiers all have an
    entry in the accumulator, the loops raise nothing, keep the rows already
    in [data] and append after them one row per (timestamp, hive) pair, in
    timestamp-major order, and leave the set of keys of the accumulator
    unchanged. *)
Theorem X2_loops_append_rows
    (np_sin : Q -> Q) (gauss unif : nat -> Q)
    (time_range : list Z) (hives : list Hive) (st : GenState) :
  (forall h, In h hives -> is_Some (cumulative_production st !! id h)) ->
  exists st' new,
    generate_rows np_sin gauss unif time_range hives st = Py.Ok (tt, st')
    /\ data st' = data st ++ new
    /\ map row_key new
       = flat_map (fun t => map (fun h => (t, id h)) hives) time_range
    /\ length new = (length time_range * length hives)%nat
    /\ (forall k, is_Some (cumulative_production st' !! k)
                  <-> is_Some (cumulative_production st !! k)).
Proof.
  intros Hkeys. rewrite generate_rows_flat.
  destruct (pairs_run np_sin gauss unif (grid_pairs time_range hives) st)
    as (st' & Hrun & Hdata & Hdom).
  - intros p Hp. apply grid_pairs_In in Hp as [_ Hh]. now apply Hkeys.
  - exists st'. eexists. split; [exact Hrun |]. split; [exact Hdata |].
    split; [| split; [| exact Hdom]].
    + rewrite rows_from_keys. apply flat_keys.
    + rewrite rows_from_length. apply grid_pairs_length.
Qed.

Lemma X2_loops_append_rows_witness :
  exists st' new,
    generate_rows sin_approx zero_draws half_draws [sample_now; evening]
      [master_001; stray_hive] stray_state
    = Py.Ok (tt, st')
    /\ data st' = data stray_state ++ new
    /\ map row_key new
       = flat_map (fun t => map (fun h => (t, id h)) [master_001; stray_hive])
                  [sample_now; evening]
    /\ length new
       = (length [sample_now; evening] * length [master_001; stray_hive])%nat
    /\ (forall k, is_Some (cumulative_production st' !! k)
                  <-> is_Some (cumulative_production stray_state !! k)).
Proof.
  apply (X2_loops_append_rows sin_approx zero_draws half_draws
           [sample_now; evening] [master_001; stray_hive] stray_state).
  intros h [<- | [<- | []]]; vm_compute; eauto.
Defined.

(** ** Bounds on production and efficiency *)

Lemma product_upper (b tf hf af sf u : Q) :
  0 <= b -> 0 < tf <= 1 -> 0 < hf <= 1 -> 0 <= af <= 1 ->
  0.5 <= sf <= 1.3 -> 0.7 <= u <= 1.3 ->
  b * tf * hf * af * sf * u <= 1.69 * b.
Proof.
  intros Hb Htf Hhf Haf Hsf Hu.
  assert (H1 : 0 <= b * tf <= b) by nra.
  assert (H2 : 0 <= b * tf * hf <= b) by nra.
  assert (H3 : 0 <= b * tf * hf * af <= b) by nra.
  assert (H4 : 0 <= b * tf * hf * af * sf <= 1.3 * b) by nra.
  nra.
Qed.




Lemma round_lower (b x c : Q) (n : nat) :
  c <= Py.round b n -> b <= x -> c <= Py.round x n.
Proof. intros Hc Hb. eapply Qle_trans; [exact Hc | now apply round_mono]. Qed.

Lemma round_upper (b x c : Q) (n : nat) :
  Py.round b n <= c -> x <= b -> Py.round x n <= c.
Proof.
  intros Hc Hb. apply Qle_trans with (Py.round b n); [now apply round_mono | exact Hc].
Qed.

Section Bounds.

Variable np_sin : Q -> Q.
Variables gauss unif : nat -> Q.
Hypothesis np_sin_range : forall x, -1 <= np_sin x <= 1.
Hypothesis unif_range : forall i, 0 <= unif i <= 1.

Abbreviation sample := (sample_at np_sin gauss unif).

Lemma sample_production_upper (hour day_of_year : Z) (hive : Hive) (k : nat) :
  hourly_production (sample hour day_of_year hive k)
  <= 1.69 * (0.008 * production_multiplier hive).
Proof.
  pose proof (production_multiplier_pos hive) as Hm.
  destruct (in_hours 6 20 hour) eqn:E.
  - rewrite (sample_production_active _ _ _ _ _ _ _ E). cbv zeta.
    unfold base_hourly_production.
    apply product_upper.
    + lra.
    + apply temp_factor_pos.
    + apply humidity_factor_pos.
    + apply activity_factor_bounds, sample_activity_bounds.
    + now apply seasonal_factor_bounds.
    + specialize (unif_range (k + 4)%nat). lra.
  - rewrite (sample_production_idle _ _ _ _ _ _ _ E). lra.
Qed.


Lemma efficiency_idle (hour day_of_year : Z) (hive : Hive) (k : nat) :
  in_hours 6 20 hour = false ->
  let s := sample hour day_of_year hive k in
  efficiency_value (hourly_production s) (activity s) == 0.
Proof.
  intros E s. subst s. rewrite (sample_production_idle _ _ _ _ _ _ _ E).
  unfold efficiency_value, production_efficiency, Py.truediv.
  destruct (Py.Qlt_bool 0 _); [| reflexivity].
  destruct (Qeq_bool _ 0); [reflexivity |]. unfold Qdiv. lra.
Qed.


End Bounds.

(** X3: with [np.sin] in [[-1, 1]] and the uniform draw in [[0, 1]], every
    row has an [hourly_production] between 0 and 0.0203 (0.0135 for a worker
    hive) and a non-negative [cumulative_production]. *)
Theorem X3_production_bounds
    (np_sin : Q -> Q) (gauss unif : nat -> Q) (time_range : list Z) :
  (forall x, -1 <= np_sin x <= 1) ->
  (forall i, 0 <= unif i <= 1) ->
  exists rows,
    generate_on np_sin gauss unif time_range = Py.Ok (rows, hives_config)
    /\ Forall (fun r => 0 <= r_hourly_production r <= 0.0203
                        /\ (r_hive_type r = worker -> r_hourly_production r <= 0.0135)
                        /\ 0 <= r_cumulative_production r) rows.
Proof.
  intros Hsin Hunif. eexists. split; [apply generate_on_rows |].
  apply List.Forall_forall. intros r Hr.
  pose proof (proj1 (List.Forall_forall _ _)
                (rows_from_origin np_sin gauss unif
                   (grid_pairs time_range hives_config) 0
                   (init_cumulative hives_config)) r Hr)
    as (t & hive & k & cum & _ & E).
  split; [| split].
  - subst r. unfold row_at, make_row. cbn [r_hourly_production].
    pose proof (sample_production_nonneg np_sin gauss unif
                  (Time.hour t) (Time.tm_yday t) hive k Hsin Hunif) as H0.
    pose proof (sample_production_upper np_sin gauss unif Hsin Hunif
                  (Time.hour t) (Time.tm_yday t) hive k) as H1.
    pose proof (production_multiplier_pos hive) as Hm.
    split.
    + apply (round_lower 0); [discriminate | exact H0].
    + apply (round_upper 0.02028); [discriminate | lra].
  - subst r. unfold row_at, make_row. cbn [r_hourly_production r_hive_type].
    intros Hw.
    pose proof (sample_production_upper np_sin gauss unif Hsin Hunif
                  (Time.hour t) (Time.tm_yday t) hive k) as H1.
    unfold production_multiplier in H1. rewrite Hw in H1. cbn [HiveType_eqb] in H1.
    apply (round_upper 0.01352); [discriminate | lra].
  - apply In_nth_error in Hr as [i Hi].
    assert (Hl : rows_from np_sin gauss unif (grid_pairs time_range hives_config) 0
                   (init_cumulative hives_config) !! i = Some r).
    { clear -Hi. revert i Hi.
      generalize (rows_from np_sin gauss unif (grid_pairs time_range hives_config) 0
                    (init_cumulative hives_config)).
      induction l as [| x l IH]; intros [| i] Hi; cbn in *; try discriminate; auto. }
    rewrite (rows_from_total _ _ _ _ _ _ _ _ Hl), init_cumulative_default.
    apply (round_lower 0); [discriminate |].
    pose proof (hive_total_nonneg (r_hive_id r)
                  (take (S i) (production_trace np_sin gauss unif
                                 (grid_pairs time_range hives_config) 0))) as Hn.
    assert (0 <= hive_total (r_hive_id r)
                   (take (S i) (production_trace np_sin gauss unif
                                  (grid_pairs time_range hives_config) 0))).
    { apply Hn, Forall_take. now apply trace_nonneg. }
    lra.
Qed.

Lemma X3_production_bounds_witness :
  exists rows,
    generate_on sin_approx zero_draws half_draws [sample_now; evening]
    = Py.Ok (rows, hives_config)
    /\ Forall (fun r => 0 <= r_hourly_production r <= 0.0203
                        /\ (r_hive_type r = worker -> r_hourly_production r <= 0.0135)
                        /\ 0 <= r_cumulative_production r) rows.
Proof.
  apply (X3_production_bounds sin_approx zero_draws half_draws [sample_now; evening]).
  - apply sin_approx_range.
  - intros i. unfold half_draws. split; discriminate.
Defined.



(** ** The hive attributes of a row *)

Lemma hive_id_inj (a b : Hive) :
  In a hives_config -> In b hives_config -> id a = id b -> a = b.
Proof.
  unfold hives_config. cbn [In]. intros Ha Hb E.
  repeat (destruct Ha as [Ha | Ha]; [subst a |]); try contradiction;
    repeat (destruct Hb as [Hb | Hb]; [subst b |]); try contradiction;
    cbn [id] in E; (reflexivity || discriminate).
Qed.

(** X5: every row is a denormalised copy of a hive of the table: its
    [hive_id] is the [id] of a hive of [hives_config], and its [hive_name],
    [hive_type], [location] and [master_id] are the attributes of the hive
    with that [id]. *)
Theorem X5_rows_copy_hive_attributes
    (np_sin : Q -> Q) (gauss unif : nat -> Q) (time_range : list Z) :
  exists rows,
    generate_on np_sin gauss unif time_range = Py.Ok (rows, hives_config)
    /\ Forall (fun r =>
         (exists hive, In hive hives_config /\ id hive = r_hive_id r)
         /\ forall hive, In hive hives_config -> id hive = r_hive_id r ->
              r_hive_name r = name hive /\ r_hive_type r = type hive
              /\ r_location r = location hive /\ r_master_id r = master_id hive) rows.
Proof.
  eexists. split; [apply generate_on_rows |].
  eapply List.Forall_impl; [| apply rows_from_origin].
  intros r (t & h0 & k & cum & Hin & ->).
  apply grid_pairs_In in Hin as [_ Hh0]. cbn [snd] in Hh0.
  unfold row_at, make_row.
  cbn [r_hive_id r_hive_name r_hive_type r_location r_master_id].
  split; [exists h0; auto |].
  intros hive Hh E. rewrite (hive_id_inj hive h0 Hh Hh0 E). auto.
Qed.

(** ** Consumption of random draws *)

Lemma pairs_calls (np_sin : Q -> Q) (gauss unif : nat -> Q)
    (pairs : list (Z * Hive)) (st st' : GenState) :
  for_each pairs
    (fun p => hive_body np_sin gauss unif (fst p) (Time.hour (fst p))
                        (Time.tm_yday (fst p)) (snd p)) st
  = Py.Ok (tt, st') ->
  rng_calls st' = (rng_calls st + draws_total pairs)%nat.
Proof.
  revert st. induction pairs as [| [t hive] pairs IH]; intros st Hrun.
  - cbn in Hrun. unfold ret in Hrun. inversion Hrun. subst. cbn. lia.
  - cbn [for_each] in Hrun. unfold bind in Hrun. cbn [fst snd] in Hrun.
    destruct (cumulative_production st !! id hive) as [c |] eqn:Hc.
    + rewrite (hive_body_run _ _ _ _ _ _ c Hc) in Hrun.
      apply IH in Hrun. rewrite Hrun. cbn [rng_calls].
      unfold draws_total, list_sum. cbn [map fold_right fst]. lia.
    + rewrite hive_body_missing in Hrun by exact Hc. discriminate.
Qed.

Lemma draws_total_grid (time_range : list Z) (hives : list Hive) :
  draws_total (grid_pairs time_range hives)
  = (length hives * list_sum (map (fun t => draws_used (Time.hour t)) time_range))%nat.
Proof.
  unfold draws_total. induction time_range as [| t ts IH].
  - cbn. lia.
  - rewrite grid_pairs_cons, map_app, list_sum_app, IH.
    unfold list_sum at 3. cbn [map fold_right]. fold (list_sum (map (fun t => draws_used (Time.hour t)) ts)).
    rewrite map_map. cbn [fst].
    assert (E : list_sum (map (fun _ : Hive => draws_used (Time.hour t)) hives)
                = (length hives * draws_used (Time.hour t))%nat).
    { clear. unfold list_sum.
      induction hives as [| h hives IH]; cbn [map fold_right length]; lia. }
    rewrite E. lia.
Qed.

(** X6: an iteration makes five calls of the random generator when the
    hour is in [[6, 20]] (four normal draws and the uniform one) and four
    otherwise; a run of the loops makes, for each timestamp, that number of
    calls once per hive. *)
Theorem X6_random_draws
    (np_sin : Q -> Q) (gauss unif : nat -> Q)
    (time_range : list Z) (hives : list Hive) (st : GenState) :
  (forall h, In h hives -> is_Some (cumulative_production st !! id h)) ->
  exists st',
    generate_rows np_sin gauss unif time_range hives st = Py.Ok (tt, st')
    /\ rng_calls st'
       = (rng_calls st
          + length hives
            * list_sum (map (fun t => if in_hours 6 20 (Time.hour t)
                                      then 5 else 4) time_range))%nat.
Proof.
  intros Hkeys. rewrite generate_rows_flat.
  destruct (pairs_run np_sin gauss unif (grid_pairs time_range hives) st)
    as (st' & Hrun & _ & _).
  - intros p Hp. apply grid_pairs_In in Hp as [_ Hh]. now apply Hkeys.
  - exists st'. split; [exact Hrun |].
    rewrite (pairs_calls _ _ _ _ _ _ Hrun), draws_total_grid. reflexivity.
Qed.

Lemma X6_random_draws_witness :
  exists st',
    generate_rows sin_approx zero_draws half_draws [sample_now; evening]
      [master_001; stray_hive] stray_state = Py.Ok (tt, st')
    /\ rng_calls st'
       = (rng_calls stray_state
          + length [master_001; stray_hive]
            * list_sum (map (fun t => if in_hours 6 20 (Time.hour t)
                                      then 5 else 4) [sample_now; evening]))%nat.
Proof.
  apply (X6_random_draws sin_approx zero_draws half_draws
           [sample_now; evening] [master_001; stray_hive] stray_state).
  intros h [<- | [<- | []]]; vm_compute; eauto.
Defined.

(** ** Rounding error of the emitted totals *)

Lemma round_half_even_error (x : Q) :
  x - (1 # 2) <= inject_Z (Py.round_half_even x) <= x + (1 # 2).
Proof.
  pose proof (Qfloor_le x) as Hlo. pose proof (Qlt_floor x) as Hhi.
  rewrite inject_Z_plus in Hhi. change (inject_Z 1) with 1 in Hhi.
  unfold Py.round_half_even.
  destruct (Py.Qlt_bool (x - inject_Z (Qfloor x)) (1 # 2)) eqn:E1.
  - apply Qlt_bool_iff in E1. lra.
  - apply Qlt_bool_false in E1.
    destruct (Py.Qlt_bool (1 # 2) (x - inject_Z (Qfloor x))) eqn:E2.
    + rewrite inject_Z_plus. change (inject_Z 1) with 1. lra.
    + apply Qlt_bool_false in E2.
      destruct (Z.even (Qfloor x)); [lra |].
      rewrite inject_Z_plus. change (inject_Z 1) with 1. lra.
Qed.

(** [round(x, n)] is within half a unit of the n-th decimal of [x]. *)
Lemma round_error (x : Q) (n : nat) :
  x - (1 # 2) / inject_Z (Py.pow10 n) <= Py.round x n
  /\ Py.round x n <= x + (1 # 2) / inject_Z (Py.pow10 n).
Proof.
  pose proof (pow10_pos n) as HP.
  assert (HQ : 0 < inject_Z (Py.pow10 n))
    by (replace 0 with (inject_Z 0) by reflexivity; now rewrite <- Zlt_Qlt).
  pose proof (round_half_even_error (x * inject_Z (Py.pow10 n))) as [H1 H2].
  unfold Py.round. set (P := inject_Z (Py.pow10 n)) in *.
  set (m := inject_Z (Py.round_half_even (x * P))) in *.
  split.
  - apply Qle_shift_div_l; [exact HQ |].
    assert (E : (x - (1 # 2) / P) * P == x * P - (1 # 2)) by (field; lra).
    rewrite E. exact H1.
  - apply Qle_shift_div_r; [exact HQ |].
    assert (E : (x + (1 # 2) / P) * P == x * P + (1 # 2)) by (field; lra).
    rewrite E. exact H2.
Qed.

Lemma round_error_3 (x : Q) : x - 0.0005 <= Py.round x 3 <= x + 0.0005.
Proof.
  pose proof (round_error x 3) as [H1 H2].
  assert (E : (1 # 2) / inject_Z (Py.pow10 3) == 0.0005) by reflexivity.
  rewrite E in H1, H2. split; [exact H1 | exact H2].
Qed.

Lemma round_error_4 (x : Q) : x - 0.00005 <= Py.round x 4 <= x + 0.00005.
Proof.
  pose proof (round_error x 4) as [H1 H2].
  assert (E : (1 # 2) / inject_Z (Py.pow10 4) == 0.00005) by reflexivity.
  rewrite E in H1, H2. split; [exact H1 | exact H2].
Qed.

Lemma rows_trace_drift (np_sin : Q -> Q) (gauss unif : nat -> Q) (hid : string)
    (pairs : list (Z * Hive)) (k : nat) (cum : gmap string Q) (n : nat) :
  let rows := take n (rows_from np_sin gauss unif pairs k cum) in
  let trace := take n (production_trace np_sin gauss unif pairs k) in
  hive_total hid trace - 0.00005 * inject_Z (Z.of_nat (rows_of_hive hid rows))
  <= emitted_total hid rows
  /\ emitted_total hid rows
     <= hive_total hid trace + 0.00005 * inject_Z (Z.of_nat (rows_of_hive hid rows)).
Proof.
  cbv zeta. revert k cum n.
  induction pairs as [| [t hive] pairs IH]; intros k cum n;
    cbn [rows_from production_trace].
  - rewrite !take_nil. cbn [emitted_total hive_total rows_of_hive].
    change (inject_Z (Z.of_nat 0)) with 0. lra.
  - destruct n as [| n];
      [cbn [take emitted_total hive_total rows_of_hive];
       change (inject_Z (Z.of_nat 0)) with 0; lra |].
    cbn [take emitted_total hive_total rows_of_hive].
    specialize (IH (k + draws_used (Time.hour t))%nat
                   (<[id hive := total_after np_sin gauss unif t hive k cum]> cum) n).
    change (r_hive_id (row_at np_sin gauss unif t hive k cum)) with (id hive).
    change (r_hourly_production (row_at np_sin gauss unif t hive k cum))
      with (Py.round (hourly_production
                        (sample_at np_sin gauss unif (Time.hour t) (Time.tm_yday t)
                                   hive k)) 4).
    destruct (String.eqb (id hive) hid).
    + pose proof (round_error_4
                    (hourly_production
                       (sample_at np_sin gauss unif (Time.hour t) (Time.tm_yday t)
                                  hive k))) as Hr.
      rewrite Nat2Z.inj_add, inject_Z_plus. change (inject_Z (Z.of_nat 1)) with 1.
      lra.
    + rewrite Nat.add_0_l. lra.
Qed.

(** X7: in every row the emitted [cumulative_production] differs from the
    sum of the emitted [hourly_production] of the rows of that hive so far
    by at most 0.0005 plus 0.00005 for each of these rows. *)
Theorem X7_emitted_totals_drift
    (np_sin : Q -> Q) (gauss unif : nat -> Q) (time_range : list Z) :
  exists rows,
    generate_on np_sin gauss unif time_range = Py.Ok (rows, hives_config)
    /\ forall i r, rows !! i = Some r ->
         let sofar := take (S i) rows in
         let slack := 0.0005 + 0.00005
                               * inject_Z (Z.of_nat (rows_of_hive (r_hive_id r) sofar)) in
         emitted_total (r_hive_id r) sofar - slack <= r_cumulative_production r
         /\ r_cumulative_production r <= emitted_total (r_hive_id r) sofar + slack.
Proof.
  eexists. split; [apply generate_on_rows |].
  intros i r Hr. cbv zeta.
  pose proof (rows_trace_drift np_sin gauss unif (r_hive_id r)
                (grid_pairs time_range hives_config) 0
                (init_cumulative hives_config) (S i)) as [D1 D2].
  cbv zeta in D1, D2.
  rewrite (rows_from_total _ _ _ _ _ _ _ _ Hr), init_cumulative_default.
  pose proof (round_error_3
                (0 + hive_total (r_hive_id r)
                       (take (S i) (production_trace np_sin gauss unif
                                      (grid_pairs time_range hives_config) 0))))
    as [R1 R2].
  split; lra.
Qed.

(** ** Position of a row in the output *)

Lemma flat_map_chunk_lookup {A B} (f : A -> list B) (n : nat) (l : list A) (i : nat) :
  (0 < n)%nat -> (forall a, length (f a) = n) ->
  flat_map f l !! i
  = match l !! (i / n)%nat with
    | Some a => f a !! (i mod n)%nat
    | None => None
    end.
Proof.
  intros Hn Hlen. revert i. induction l as [| a l IH]; intros i; cbn [flat_map].
  - now rewrite !lookup_nil.
  - destruct (Nat.lt_ge_cases i n) as [Hlt | Hge].
    + rewrite lookup_app_l by (rewrite Hlen; exact Hlt).
      rewrite Nat.div_small, Nat.mod_small by exact Hlt. reflexivity.
    + rewrite lookup_app_r by (rewrite Hlen; exact Hge).
      rewrite Hlen, IH.
      assert (E : i = ((i - n) + 1 * n)%nat) by lia.
      assert (Ediv : (i / n)%nat = S ((i - n) / n)).
      { rewrite E at 1. rewrite Nat.div_add by lia. lia. }
      assert (Emod : (i mod n)%nat = ((i - n) mod n)%nat).
      { rewrite E at 1. now rewrite Nat.Div0.mod_add. }
      rewrite Ediv, Emod. reflexivity.
Qed.

Lemma date_range_30_lookup (now : Z) (j : nat) :
  (j < 721)%nat ->
  Time.date_range (now - Time.timedelta_days 30) now !! j
  = Some (now - Time.timedelta_days 30 + Z.of_nat j * Time.us_per_hour)%Z.
Proof.
  intros Hj. unfold Time.date_range.
  destruct (Z.ltb_spec now (now - Time.timedelta_days 30)) as [H | _].
  - unfold Time.timedelta_days, Time.us_per_day, Time.us_per_hour in H. lia.
  - rewrite list_lookup_fmap.
    replace (now - (now - Time.timedelta_days 30))%Z
      with (720 * Time.us_per_hour)%Z
      by (unfold Time.timedelta_days, Time.us_per_day; lia).
    rewrite Z.div_mul by (unfold Time.us_per_hour; lia).
    change (S (Z.to_nat 720)) with 721%nat.
    rewrite lookup_seq_lt by exact Hj. reflexivity.
Qed.

(** X8: row [i] of a run is the row of hive [i mod 7] of the table at hour
    [i / 7] of the window: the first seven rows are stamped 30 days before
    [now], the last seven are stamped [now]. *)
Theorem X8_row_position (np_sin : Q -> Q) (gauss unif : nat -> Q) (now : Z) :
  exists rows,
    generate_beehive_data np_sin gauss unif now = Py.Ok (rows, hives_config)
    /\ length rows = (721 * 7)%nat
    /\ (forall i, (i < 721 * 7)%nat ->
          exists r hive,
            rows !! i = Some r
            /\ hives_config !! (i mod 7)%nat = Some hive
            /\ r_hive_id r = id hive
            /\ r_timestamp r
               = (now - Time.timedelta_days 30
                  + Z.of_nat (i / 7) * Time.us_per_hour)%Z)
    /\ (forall r, rows !! (720 * 7 + 6)%nat = Some r -> r_timestamp r = now).
Proof.
  destruct (generated_keys np_sin gauss unif
              (Time.date_range (now - Time.timedelta_days 30) now))
    as (rows & Hrun & Hkeys).
  assert (Hlen : length rows = (721 * 7)%nat).
  { rewrite <- (length_map row_key), Hkeys, <- hive_keys_length,
      date_range_30_days. reflexivity. }
  assert (Hpos : forall i, (i < 721 * 7)%nat ->
            exists r hive,
              rows !! i = Some r
              /\ hives_config !! (i mod 7)%nat = Some hive
              /\ r_hive_id r = id hive
              /\ r_timestamp r
                 = (now - Time.timedelta_days 30
                    + Z.of_nat (i / 7) * Time.us_per_hour)%Z).
  { intros i Hi.
    destruct (lookup_lt_is_Some_2 rows i) as [r Hr]; [lia |].
    destruct (lookup_lt_is_Some_2 hives_config (i mod 7)) as [hive Hh].
    { change (length hives_config) with 7%nat. apply Nat.mod_upper_bound. lia. }
    exists r, hive. split; [exact Hr |]. split; [exact Hh |].
    assert (Hk : map row_key rows !! i = Some (row_key r))
      by (rewrite list_lookup_fmap, Hr; reflexivity).
    rewrite Hkeys in Hk.
    rewrite (flat_map_chunk_lookup _ 7) in Hk;
      [| lia | intros a; rewrite !length_map; reflexivity].
    rewrite date_range_30_lookup in Hk
      by (apply Nat.Div0.div_lt_upper_bound; lia).
    rewrite !list_lookup_fmap, Hh in Hk. cbn in Hk.
    inversion Hk as [[Ht Hid]]. split; reflexivity. }
  exists rows. split; [exact Hrun |]. split; [exact Hlen |]. split; [exact Hpos |].
  intros r Hr. destruct (Hpos (720 * 7 + 6)%nat) as (r' & hive & Hr' & _ & _ & Ht); [lia |].
  rewrite Hr in Hr'. inversion Hr'. subst r'. rewrite Ht.
  change ((720 * 7 + 6) / 7)%nat with 720%nat.
  unfold Time.timedelta_days, Time.us_per_day. lia.
Qed.

(** ** Idle hours *)

(** X9: outside the hours [[6, 20]] an iteration produces nothing: it
    succeeds when the hive has an accumulator entry [c], appends one row
    with [hourly_production] 0, [production_efficiency] 0 and
    [cumulative_production] equal to [c] rounded to three decimals, and
    leaves the entry equal to [c]. *)
Theorem X9_idle_hour_iteration
    (np_sin : Q -> Q) (gauss unif : nat -> Q)
    (t : Z) (hive : Hive) (st : GenState) (c : Q) :
  (Time.hour t < 6 \/ 20 < Time.hour t)%Z ->
  cumulative_production st !! id hive = Some c ->
  exists st' r c',
    hive_body np_sin gauss unif t (Time.hour t) (Time.tm_yday t) hive st
    = Py.Ok (tt, st')
    /\ data st' = data st ++ [r]
    /\ r_hourly_production r == 0
    /\ r_production_efficiency r == 0
    /\ r_cumulative_production r = Py.round c 3
    /\ cumulative_production st' !! id hive = Some c'
    /\ c' == c
    /\ rng_calls st' = (rng_calls st + 4)%nat.
Proof.
  intros Hh Hc. apply in_hours_false in Hh.
  rewrite (hive_body_run _ _ _ _ _ _ c Hc).
  assert (Htot : total_after np_sin gauss unif t hive (rng_calls st)
                   (cumulative_production st) == c).
  { unfold total_after. rewrite Hc, (sample_production_idle _ _ _ _ _ _ _ Hh).
    cbn [default from_option Datatypes.id]. lra. }
  do 3 eexists. split; [reflexivity |]. cbn [data cumulative_production rng_calls].
  split; [reflexivity |].
  unfold row_at, make_row.
  cbn [r_hourly_production r_production_efficiency r_cumulative_production].
  split; [| split; [| split; [| split; [| split]]]].
  - now rewrite (sample_production_idle _ _ _ _ _ _ _ Hh).
  - now rewrite (round_comp _ 0 4 (efficiency_idle np_sin gauss unif _ _ _ _ Hh)).
  - now apply round_comp.
  - apply lookup_insert_eq.
  - exact Htot.
  - unfold draws_used. now rewrite Hh.
Qed.

Lemma X9_idle_hour_iteration_witness :
  exists st' r c',
    hive_body sin_approx zero_draws half_draws
      (evening + Time.us_per_hour) (Time.hour (evening + Time.us_per_hour))
      (Time.tm_yday (evening + Time.us_per_hour)) stray_hive stray_state
    = Py.Ok (tt, st')
    /\ data st' = data stray_state ++ [r]
    /\ r_hourly_production r == 0
    /\ r_production_efficiency r == 0
    /\ r_cumulative_production r = Py.round 1 3
    /\ cumulative_production st' !! id stray_hive = Some c'
    /\ c' == 1
    /\ rng_calls st' = (rng_calls stray_state + 4)%nat.
Proof.
  apply (X9_idle_hour_iteration sin_approx zero_draws half_draws
           (evening + Time.us_per_hour) stray_hive stray_state 1).
  - right. vm_compute. reflexivity.
  - vm_compute. reflexivity.
Defined.

(** ** Saving the result *)


(** X10: [save_data_to_json] writes the rows first and the hive table
    second, with no guard between the two.  When [beehive_data.json] cannot
    be opened it raises [OSError] with no file changed; when only
    [hives_config.json] cannot be opened it raises [OSError] after the rows
    are stored, and the hive table is not; in both cases only the first line
    has been printed.  When both can be opened it returns [True], the two
    paths hold the rows and the hive table, every other path is as before,
    and the three further lines are printed, the first of them reporting
    5047 data points for 7 hives.  The generator itself never makes it
    raise. *)
Theorem X10_save_data_to_json
    (np_sin : Q -> Q) (gauss unif : nat -> Q) (now : Z) (w : World) :
  exists rows,
    generate_beehive_data np_sin gauss unif now = Py.Ok (rows, hives_config)
    /\ let data_path := "beehive_data.json"%string in
       let config_path := "hives_config.json"%string in
       let result := save_data_to_json np_sin gauss unif now w in
       let started := stdout w ++ ["Generating beehive data..."%string] in
       unwritable (snd result) = unwritable w
       /\ (data_path ∈ unwritable w ->
           fst result = Raised OSError
           /\ files (snd result) = files w
           /\ stdout (snd result) = started)
       /\ (data_path ∉ unwritable w -> config_path ∈ unwritable w ->
           fst result = Raised OSError
           /\ files (snd result) = <[data_path := ReadingsDoc rows]> (files w)
           /\ stdout (snd result) = started)
       /\ (data_path ∉ unwritable w -> config_path ∉ unwritable w ->
           fst result = Returned true
           /\ files (snd result)
              = <[config_path := HivesDoc hives_config]>
                  (<[data_path := ReadingsDoc rows]> (files w))
           /\ stdout (snd result)
              = started ++ [ "✅ Generated 5047 data points for 7 hives";
                             "✅ Data saved to 'beehive_data.json'";
                             "✅ Configuration saved to 'hives_config.json'"
                           ]%string).
Proof.
  destruct (generated_keys np_sin gauss unif
              (Time.date_range (now - Time.timedelta_days 30) now))
    as (rows & Hrun & Hkeys).
  assert (Hlen : length rows = (721 * 7)%nat).
  { rewrite <- (length_map row_key), Hkeys, <- hive_keys_length,
      date_range_30_days. reflexivity. }
  exists rows. split; [exact Hrun |]. cbv zeta.
  unfold save_data_to_json. unfold generate_beehive_data in Hrun |- *.
  rewrite Hrun. unfold dump, print. cbn [files unwritable stdout].
  destruct (decide ("beehive_data.json"%string ∈ unwritable w)) as [Hd | Hd];
    cbn [fst snd files unwritable stdout].
  - split; [reflexivity |]. split; [auto |]. split; intros; contradiction.
  - destruct (decide ("hives_config.json"%string ∈ unwritable w)) as [Hc | Hc];
      cbn [fst snd files unwritable stdout].
    + split; [reflexivity |]. split; [intros; contradiction |].
      split; [auto | intros; contradiction].
    + split; [reflexivity |]. split; [intros; contradiction |].
      split; [intros; contradiction |].
      intros _ _. split; [reflexivity |]. split; [reflexivity |].
      rewrite Hlen. rewrite <- !app_assoc. reflexivity.
Qed.
